(** * PSt_CV: conversion of .pssession files to text tables

    A shallow embedding of [src/PSt_CV.py]: the function
    [parse_pessession_file] (payload extraction by brace counting, then the
    walk over measurements and curves) and the part of
    [convert_pessession_to_text] that renders the scans of one file.

    Python values are modelled by the inductive [value]; an operation that
    can raise returns a [result]; the body of [parse_pessession_file], which
    appends to the local list [all_scans] and runs under [try]/[except],
    is written in a small state-and-exception monad [M].  The [print] calls
    only narrate progress and are left out. *)

From Stdlib Require Import ZArith NArith List String Ascii Bool Lia Sorted.
From Stdlib Require DecimalString.
Import ListNotations.

Set Warnings "-register-all".

Local Open Scope string_scope.
Local Open Scope list_scope.
Local Open Scope Z_scope.

(** ** Exceptions and results *)

(** The exceptions the code can meet.  All of them derive from
    [Exception], which is what both [except] clauses catch. *)
Inductive exn : Type :=
| TypeError
| KeyError (key : string)
| IndexError
| ValueError
| OtherError (msg : string).

Inductive result (A : Type) : Type :=
| Ok (a : A)
| Raise (e : exn).

Arguments Ok {A} a.
Arguments Raise {A} e.

Definition rbind {A B : Type} (r : result A) (k : A -> result B) : result B :=
  match r with
  | Ok a => k a
  | Raise e => Raise e
  end.

Declare Scope result_scope.
Delimit Scope result_scope with result.
Notation "'let?' x ':=' r 'in' k" := (rbind r (fun x => k))
  (at level 10, x name, r at level 100, k at level 200) : result_scope.

(** [[f(x) for x in xs]]: the elements are visited in order and the first
    exception ends the comprehension. *)
Fixpoint comprehension {A B : Type} (f : A -> result B) (xs : list A)
  : result (list B) :=
  match xs with
  | [] => Ok []
  | x :: rest =>
      (let? y := f x in
       let? ys := comprehension f rest in
       Ok (y :: ys))%result
  end.

Declare Scope py_scope.
Delimit Scope py_scope with py.

(** ** Text *)

(** A Python [str] read from the file is a sequence of code points. *)
Definition char : Type := N.

Definition open_brace : char := 123%N.
Definition close_brace : char := 125%N.
Definition byte_order_mark : char := 65279%N.

(** The code points of an ASCII literal. *)
Definition text (s : string) : list char :=
  map N_of_ascii (list_ascii_of_string s).

(** [s.find(c)]: the least index of [c], or -1. *)
Fixpoint find_from (c : char) (s : list char) (i : Z) : Z :=
  match s with
  | [] => -1
  | x :: rest => if N.eqb x c then i else find_from c rest (i + 1)
  end.

Definition find (s : list char) (c : char) : Z := find_from c s 0.

(** [s[a:b]] for indices that are not negative. *)
Definition slice {A : Type} (s : list A) (a b : Z) : list A :=
  firstn (Z.to_nat b - Z.to_nat a) (skipn (Z.to_nat a) s).

(** [s[a:]] for an index that is not negative. *)
Definition slice_from {A : Type} (s : list A) (a : Z) : list A :=
  skipn (Z.to_nat a) s.

Definition len {A : Type} (l : list A) : Z := Z.of_nat (List.length l).

(** ** Values of a parsed document *)

Section Values.

(** JSON numbers become Python [int]s and [float]s; the code never computes
    with them, so their representation is left open. *)
Variable number : Type.

Inductive value : Type :=
| VNone
| VBool (b : bool)
| VNum (n : number)
| VStr (s : string)
| VList (items : list value)
| VDict (items : list (string * value)).

(** A [dict] is kept as its items in insertion order; a key is bound by the
    first item that carries it.  ([json.loads] builds dicts whose keys are
    distinct; nothing below relies on it.) *)
Fixpoint dict_get (d : list (string * value)) (key : string) : option value :=
  match d with
  | [] => None
  | (k, v) :: rest => if String.eqb k key then Some v else dict_get rest key
  end.

Definition is_substring (needle hay : string) : bool :=
  match String.index 0 needle hay with
  | Some _ => true
  | None => false
  end.

Definition str_equals (key : string) (v : value) : bool :=
  match v with
  | VStr s => String.eqb s key
  | _ => false
  end.

(** [key in x] for a [str] key: membership among the keys of a dict, among
    the elements of a list, as a substring of a string; [TypeError] on a
    value that is no container. *)
Definition py_contains (key : string) (x : value) : result bool :=
  match x with
  | VDict d => Ok (match dict_get d key with Some _ => true | None => false end)
  | VList l => Ok (existsb (str_equals key) l)
  | VStr s => Ok (is_substring key s)
  | _ => Raise TypeError
  end.

(** [x[key]] for a [str] key: only a dict can be indexed by a string. *)
Definition py_getitem (x : value) (key : string) : result value :=
  match x with
  | VDict d =>
      match dict_get d key with
      | Some v => Ok v
      | None => Raise (KeyError key)
      end
  | _ => Raise TypeError
  end.

(** [len(x)]. *)
Definition py_len (x : value) : result Z :=
  match x with
  | VDict d => Ok (len d)
  | VList l => Ok (len l)
  | VStr s => Ok (Z.of_nat (String.length s))
  | _ => Raise TypeError
  end.

(** The elements [for ... in x] visits: the elements of a list, the keys of
    a dict, the characters of a string. *)
Definition py_iter (x : value) : result (list value) :=
  match x with
  | VList l => Ok l
  | VDict d => Ok (map (fun kv => VStr (fst kv)) d)
  | VStr s => Ok (map (fun c => VStr (String c EmptyString)) (list_ascii_of_string s))
  | _ => Raise TypeError
  end.

(** [enumerate(l)], counting from [i]. *)
Fixpoint enumerate_from {A : Type} (i : Z) (l : list A) : list (Z * A) :=
  match l with
  | [] => []
  | x :: rest => (i, x) :: enumerate_from (i + 1) rest
  end.

Definition enumerate {A : Type} (l : list A) : list (Z * A) := enumerate_from 0 l.

(** ** Scan records *)

(** The dict [{'scan_number': .., 'potential': .., 'current': ..}]. *)
Record ScanRecord : Type := mkScan {
  scan_number : Z;
  potential : list value;
  current : list value
}.

(** ** The monad of the function body *)

(** The state is the local list [all_scans].  An exception leaves the
    state as it was when it was raised. *)
Definition M (A : Type) : Type := list ScanRecord -> result A * list ScanRecord.

Definition ret {A : Type} (a : A) : M A := fun all_scans => (Ok a, all_scans).

Definition bind {A B : Type} (m : M A) (k : A -> M B) : M B :=
  fun all_scans =>
    match m all_scans with
    | (Ok a, all_scans') => k a all_scans'
    | (Raise e, all_scans') => (Raise e, all_scans')
    end.

Definition lift {A : Type} (r : result A) : M A := fun all_scans => (r, all_scans).

(** [all_scans.append(r)]. *)
Definition append (r : ScanRecord) : M unit :=
  fun all_scans => (Ok tt, all_scans ++ [r]).

(** Reading the variable [all_scans]. *)
Definition get_all_scans : M (list ScanRecord) :=
  fun all_scans => (Ok all_scans, all_scans).

(** [try: m except Exception as e: handler e]. *)
Definition try_except {A : Type} (m : M A) (handler : exn -> M A) : M A :=
  fun all_scans =>
    match m all_scans with
    | (Ok a, all_scans') => (Ok a, all_scans')
    | (Raise e, all_scans') => handler e all_scans'
    end.

Notation "x <- m ;; k" := (bind m (fun x => k))
  (at level 100, m at next level, right associativity) : py_scope.
Notation "m ;; k" := (bind m (fun _ => k))
  (at level 100, right associativity) : py_scope.

(** [for x in items: body x]. *)
Fixpoint for_each {A : Type} (body : A -> M unit) (items : list A) : M unit :=
  match items with
  | [] => ret tt
  | x :: rest => (body x ;; for_each body rest)%py
  end.

(** ** parse_pessession_file: the walk over the document (lines 43-81) *)

(** Lines 53-64, for one axis: the list stays empty unless the curve has
    the axis and the axis has ['DataValues']. *)
Definition axis_values (axis : string) (curve : value) : result (list value) :=
  (let? has_axis := py_contains axis curve in
   if has_axis then
     let? array := py_getitem curve axis in
     let? has_values := py_contains "DataValues" array in
     if has_values then
       let? array := py_getitem curve axis in
       let? data_values := py_getitem array "DataValues" in
       let? points := py_iter data_values in
       comprehension (fun point => py_getitem point "V") points
     else Ok []
   else Ok [])%result.

(** Lines 66-74: the record is appended when both lists are non-empty and
    equally long. *)
Definition keep_scan (curve_idx : Z) (potential current : list value) : M unit :=
  if (len potential >? 0) && (len current >? 0) then
    if negb (len potential =? len current) then ret tt
    else append (mkScan (curve_idx + 1) potential current)
  else ret tt.

(** Lines 52-74: the body of the loop over curves. *)
Definition process_curve (item : Z * value) : M unit :=
  let '(curve_idx, curve) := item in
  (potential <- lift (axis_values "XAxisDataArray" curve) ;;
   current <- lift (axis_values "YAxisDataArray" curve) ;;
   keep_scan curve_idx potential current)%py.

(** Lines 46-76: the body of the loop over measurements. *)
Definition process_measurement (item : Z * value) : M unit :=
  let '(measurement_idx, measurement) := item in
  (has_curves <- lift (py_contains "Curves" measurement) ;;
   if has_curves then
     curves <- lift (let? c := py_getitem measurement "Curves" in py_iter c)%result ;;
     for_each process_curve (enumerate curves)
   else ret tt)%py.

(** Lines 43-78. *)
Definition assemble (data : value) : M unit :=
  (has_measurements <- lift (py_contains "Measurements" data) ;;
   nonempty <- (if has_measurements
                then lift (let? ms := py_getitem data "Measurements" in
                           let? n := py_len ms in
                           Ok (n >? 0))%result
                else ret false) ;;
   if nonempty then
     measurements <- lift (let? ms := py_getitem data "Measurements" in py_iter ms)%result ;;
     for_each process_measurement (enumerate measurements)
   else ret tt)%py.

End Values.

Arguments VNone {number}.
Arguments VBool {number} b.
Arguments VNum {number} n.
Arguments VStr {number} s.
Arguments VList {number} items.
Arguments VDict {number} items.
Arguments mkScan {number} scan_number potential current.
Arguments scan_number {number} s.
Arguments potential {number} s.
Arguments current {number} s.
Arguments dict_get {number} d key.
Arguments str_equals {number} key v.
Arguments py_contains {number} key x.
Arguments py_getitem {number} x key.
Arguments py_len {number} x.
Arguments py_iter {number} x.
Arguments ret {number A} a.
Arguments bind {number A B} m k.
Arguments lift {number A} r.
Arguments append {number} r.
Arguments get_all_scans {number}.
Arguments try_except {number A} m handler.
Arguments for_each {number A} body items.
Arguments axis_values {number} axis curve.
Arguments keep_scan {number} curve_idx potential current.
Arguments process_curve {number} item.
Arguments process_measurement {number} item.
Arguments assemble {number} data.

Notation "x <- m ;; k" := (bind m (fun x => k))
  (at level 100, m at next level, right associativity) : py_scope.
Notation "m ;; k" := (bind m (fun _ => k))
  (at level 100, right associativity) : py_scope.

(** ** parse_pessession_file: locating the payload (lines 15-40) *)

(** Lines 15-16. *)
Definition strip_bom (content : list char) : list char :=
  match content with
  | c :: rest => if N.eqb c byte_order_mark then rest else content
  | [] => content
  end.

(** Lines 29-32: the counter after one character. *)
Definition count_brace (brace_count : Z) (c : char) : Z :=
  if N.eqb c open_brace then brace_count + 1
  else if N.eqb c close_brace then brace_count - 1
  else brace_count.

(** Lines 28-33, the [while] loop.  [rest] is [content[end_idx:]]: the test
    [end_idx < len(content)] holds when [rest] is not empty, and
    [content[end_idx]] is then its head.  The result is the pair
    [(brace_count, end_idx)] the loop ends with. *)
Fixpoint match_braces (rest : list char) (brace_count end_idx : Z) : Z * Z :=
  match rest with
  | [] => (brace_count, end_idx)
  | c :: rest' =>
      if brace_count >? 0
      then match_braces rest' (count_brace brace_count c) (end_idx + 1)
      else (brace_count, end_idx)
  end.

(** How the search for the payload ends: the two early [return []] (after
    "No JSON content found" and after "Incomplete JSON content"), or the
    text given to [json.loads]. *)
Inductive span : Type :=
| NoJsonFound
| IncompleteJson
| JsonContent (json_content : list char).

(** Lines 19-40. *)
Definition json_span (content : list char) : span :=
  let start_idx := find content open_brace in
  if start_idx =? -1 then NoJsonFound
  else
    let '(brace_count, end_idx) :=
      match_braces (slice_from content (start_idx + 1)) 1 (start_idx + 1) in
    if brace_count >? 0 then IncompleteJson
    else JsonContent (slice content start_idx end_idx).

(** ** parse_pessession_file and the rendering of one file *)

Section Conversion.

Context {number : Type}.

(** [json.loads], of the standard library. *)
Variable json_loads : list char -> result (value number).

(** [f"{x}"], the text Python prints for a value. *)
Variable str_of : value number -> string.

(** How the extraction of lines 19-41 ends: one of the two early returns,
    an exception of [json.loads], or the payload and the document parsed
    from it. *)
Inductive extraction : Type :=
| NoPayload
| IncompletePayload
| MalformedJson (e : exn)
| ParsedSession (json_content : list char) (data : value number).

Definition extract (content : list char) : extraction :=
  match json_span content with
  | NoJsonFound => NoPayload
  | IncompleteJson => IncompletePayload
  | JsonContent json_content =>
      match json_loads json_content with
      | Ok data => ParsedSession json_content data
      | Raise e => MalformedJson e
      end
  end.

(** Lines 15-81: the [try] block once the file has been read. *)
Definition parse_body (content : list char) : M number (list (ScanRecord number)) :=
  let content := strip_bom content in
  match json_span content with
  | NoJsonFound => ret []
  | IncompleteJson => ret []
  | JsonContent json_content =>
      (data <- lift (json_loads json_content) ;;
       assemble data ;;
       all_scans <- get_all_scans ;;
       ret all_scans)%py
  end.

(** Lines 13-81, the [try] block.  [file] is what opening and reading the
    file gives: its decoded text, or the exception raised. *)
Definition try_body (file : result (list char))
  : M number (list (ScanRecord number)) :=
  (content <- lift file ;; parse_body content)%py.

(** Lines 9-85: [all_scans] starts empty, and the [except] clause returns
    the empty list.  The second component is [all_scans] as the function
    leaves it. *)
Definition run_parse (file : result (list char))
  : result (list (ScanRecord number)) * list (ScanRecord number) :=
  try_except (try_body file) (fun _ => ret []) [].

Definition parse_pessession_file (file : result (list char))
  : result (list (ScanRecord number)) :=
  fst (run_parse file).

(** *** convert_pessession_to_text, for one file (lines 119-160) *)

Definition tab : string := String (ascii_of_nat 9) EmptyString.
Definition newline : string := String (ascii_of_nat 10) EmptyString.

(** [f"{n}"] for an [int]. *)
Definition str_of_int (n : Z) : string :=
  DecimalString.NilZero.string_of_int (Z.to_int n).

(** [range(n)]. *)
Definition range (n : Z) : list Z := map Z.of_nat (seq 0 (Z.to_nat n)).

(** [l[i]] for an [int] index. *)
Definition list_item {A : Type} (l : list A) (i : Z) : result A :=
  let j := if i <? 0 then i + len l else i in
  if (0 <=? j) && (j <? len l) then
    match nth_error l (Z.to_nat j) with
    | Some x => Ok x
    | None => Raise IndexError
    end
  else Raise IndexError.

(** [max(l)]: [ValueError] on an empty sequence. *)
Definition py_max (l : list Z) : result Z :=
  match l with
  | [] => Raise ValueError
  | x :: rest => Ok (fold_left Z.max rest x)
  end.

(** Lines 132-134. *)
Definition scan_header (n_scans : Z) : string :=
  fold_left (fun header_line scan_num =>
               (header_line ++ "Scan " ++ str_of_int (scan_num + 1)
                            ++ tab ++ tab ++ tab ++ tab)%string)
            (range n_scans) EmptyString.

Definition column_group : string :=
  ("Potential(V)" ++ tab ++ "Current(A)" ++ tab ++ tab)%string.

(** Lines 138-140. *)
Definition column_header (n_scans : Z) : string :=
  fold_left (fun header_line _ => (header_line ++ column_group)%string)
            (range n_scans) EmptyString.

Definition placeholder : string := (tab ++ tab ++ tab)%string.

(** Lines 150-153: what one scan adds to the line of row [i]. *)
Definition cell_group (i : Z) (scan : ScanRecord number) : result string :=
  if i <? len (potential scan) then
    (let? p := list_item (potential scan) i in
     let? c := list_item (current scan) i in
     Ok (str_of p ++ tab ++ str_of c ++ tab ++ tab)%string)%result
  else Ok placeholder.

(** Lines 148-153: the inner loop, from the line built so far. *)
Fixpoint data_line (i : Z) (scans : list (ScanRecord number)) (line : string)
  : result string :=
  match scans with
  | [] => Ok line
  | scan :: rest =>
      (let? group := cell_group i scan in
       data_line i rest (line ++ group)%string)%result
  end.

(** Lines 147-154: the outer loop.  [output_file] is the sequence of
    strings written so far; what has been written stays written when a
    later row raises. *)
Fixpoint write_rows (rows : list Z) (all_scans : list (ScanRecord number))
                    (output_file : list string) : list string * result unit :=
  match rows with
  | [] => (output_file, Ok tt)
  | i :: rest =>
      match data_line i all_scans EmptyString with
      | Ok line => write_rows rest all_scans (output_file ++ [(line ++ newline)%string])
      | Raise e => (output_file, Raise e)
      end
  end.

(** Lines 130-154: the body of [with open(output_filepath, 'w')]. *)
Definition write_table (all_scans : list (ScanRecord number))
  : list string * result unit :=
  let output_file := [] in
  let output_file := output_file ++ [(scan_header (len all_scans) ++ newline)%string] in
  let output_file := output_file ++ [(column_header (len all_scans) ++ newline)%string] in
  match py_max (map (fun scan => len (potential scan)) all_scans) with
  | Raise e => (output_file, Raise e)
  | Ok max_points => write_rows (range max_points) all_scans output_file
  end.

(** What happens to one file of the folder: it is skipped, or the
    [except] clause reports an error before any output file is opened, or
    an output file is opened and written ([status] is the exception that
    ended the writing, if any). *)
Inductive conversion : Type :=
| Skipped
| ErrorProcessing (e : exn)
| Written (output_file : list string) (status : result unit).

(** Lines 119-160.  Opening the output file and writing to it are taken
    to succeed. *)
Definition convert_file (file : result (list char)) : conversion :=
  match parse_pessession_file file with
  | Raise e => ErrorProcessing e
  | Ok all_scans =>
      match all_scans with
      | [] => Skipped
      | _ :: _ =>
          let '(output_file, status) := write_table all_scans in
          Written output_file status
      end
  end.

End Conversion.

Arguments NoPayload {number}.
Arguments IncompletePayload {number}.
Arguments MalformedJson {number} e.
Arguments ParsedSession {number} json_content data.

(** ** Documents of the expected shape *)

Section Documents.

Context {number : Type}.

(** [{"V": v}] *)
Definition data_point (v : value number) : value number :=
  VDict [("V", v)].

(** [{"DataValues": [{"V": v1}, ...]}] *)
Definition data_array (vs : list (value number)) : value number :=
  VDict [("DataValues", VList (map data_point vs))].

Definition curve_of (xs ys : list (value number)) : value number :=
  VDict [("XAxisDataArray", data_array xs); ("YAxisDataArray", data_array ys)].

Definition measurement_of (curves : list (value number)) : value number :=
  VDict [("Curves", VList curves)].

Definition session_of (measurements : list (value number)) : value number :=
  VDict [("Measurements", VList measurements)].

End Documents.

(** ** What the loops contribute *)

(** The loops of [assemble] only ever append to [all_scans].  To state
    what they append, the records a loop body adds and the way it ends are
    described by a pure function; [gather] then follows a [for] loop: it
    collects what the bodies add, in order, up to the first exception. *)

Section Contributions.

Context {number : Type}.

Definition contribution : Type := list (ScanRecord number) * result unit.

Fixpoint gather {A : Type} (f : A -> contribution) (items : list A) : contribution :=
  match items with
  | [] => ([], Ok tt)
  | x :: rest =>
      match f x with
      | (added, Ok _) =>
          let '(more, status) := gather f rest in (added ++ more, status)
      | (added, Raise e) => (added, Raise e)
      end
  end.

(** [body] appends what [f] says and ends as [f] says. *)
Definition appends {A : Type} (body : A -> M number unit) (f : A -> contribution) : Prop :=
  forall x all_scans, body x all_scans = (snd (f x), all_scans ++ fst (f x)).

(** Both lists are non-empty and equally long (lines 66-67). *)
Definition aligned (xs ys : list (value number)) : bool :=
  (len xs >? 0) && (len ys >? 0) && (len xs =? len ys).

Definition scans_of_curve (item : Z * value number) : contribution :=
  match axis_values "XAxisDataArray" (snd item) with
  | Raise e => ([], Raise e)
  | Ok xs =>
      match axis_values "YAxisDataArray" (snd item) with
      | Raise e => ([], Raise e)
      | Ok ys =>
          (if aligned xs ys then [mkScan (fst item + 1) xs ys] else [], Ok tt)
      end
  end.

(** The curves the loop of lines 49-51 visits: none without ['Curves']. *)
Definition curves_of (measurement : value number) : result (list (value number)) :=
  (let? has_curves := py_contains "Curves" measurement in
   if has_curves then
     let? curves := py_getitem measurement "Curves" in py_iter curves
   else Ok [])%result.

Definition scans_of_measurement (item : Z * value number) : contribution :=
  match curves_of (snd item) with
  | Raise e => ([], Raise e)
  | Ok curves => gather scans_of_curve (enumerate curves)
  end.

(** The measurements the loop of lines 43-45 visits: none without
    ['Measurements'], none when it is empty. *)
Definition measurements_of (data : value number) : result (list (value number)) :=
  (let? has_measurements := py_contains "Measurements" data in
   if has_measurements then
     let? measurements := py_getitem data "Measurements" in
     let? n := py_len measurements in
     if n >? 0 then py_iter measurements else Ok []
   else Ok [])%result.

Definition scans_of_document (data : value number) : contribution :=
  match measurements_of data with
  | Raise e => ([], Raise e)
  | Ok measurements => gather scans_of_measurement (enumerate measurements)
  end.

End Contributions.

(** ** The data model of a curve *)

Section DataModel.

Context {number : Type}.

(** A data point exposes its value under the key ['V']. *)
Definition exposes (point v : value number) : Prop :=
  exists d, point = VDict d /\ dict_get d "V" = Some v.

(** The series a curve carries on an axis: the ['V'] values of the points
    of [axis.DataValues], in their order; the empty series when the curve
    has no such axis or the axis has no ['DataValues']. *)
Inductive series_at (axis : string) (curve : list (string * value number))
  : list (value number) -> Prop :=
| series_no_axis :
    dict_get curve axis = None ->
    series_at axis curve []
| series_no_values array :
    dict_get curve axis = Some (VDict array) ->
    dict_get array "DataValues" = None ->
    series_at axis curve []
| series_values array points vs :
    dict_get curve axis = Some (VDict array) ->
    dict_get array "DataValues" = Some (VList points) ->
    Forall2 exposes points vs ->
    series_at axis curve vs.

End DataModel.

(** ** Sample documents *)

(** Two measurements.  The first has a curve whose series differ in length
    and a curve of two readings; the second has one curve of one
    reading. *)
Definition sample_session : value Z :=
  session_of
    [measurement_of [curve_of [VNum 0; VNum 1; VNum 2] [VNum 10; VNum 20];
                     curve_of [VNum 0; VNum 5] [VNum 7; VNum 8]];
     measurement_of [curve_of [VNum 3] [VNum 4]]].

(** One measurement whose second curve has a data point without ['V']. *)
Definition broken_session : value Z :=
  session_of
    [measurement_of
       [curve_of [VNum 0; VNum 5] [VNum 7; VNum 8];
        VDict [("XAxisDataArray",
                VDict [("DataValues", VList [VDict [("W", VNum 1)]])])]]].

(** A stand-in for [json.loads] that yields one fixed document. *)
Definition loads_as (data : value Z) (json_content : list char)
  : result (value Z) :=
  Ok data.

(** ** Documents with structural gaps *)

Section Shapes.

Context {number : Type}.

(** The key is missing, or its value satisfies [P]. *)
Definition optional (d : list (string * value number)) (key : string)
  (P : value number -> Prop) : Prop :=
  match dict_get d key with
  | Some v => P v
  | None => True
  end.

Definition point_shape (point : value number) : Prop :=
  exists v, exposes point v.

Definition array_shape (array : value number) : Prop :=
  exists d, array = VDict d
            /\ optional d "DataValues"
                 (fun values => exists points,
                      values = VList points /\ Forall point_shape points).

Definition curve_shape (curve : value number) : Prop :=
  exists d, curve = VDict d
            /\ optional d "XAxisDataArray" array_shape
            /\ optional d "YAxisDataArray" array_shape.

Definition measurement_shape (measurement : value number) : Prop :=
  exists d, measurement = VDict d
            /\ optional d "Curves"
                 (fun curves => exists l,
                      curves = VList l /\ Forall curve_shape l).

(** A session in which any of ['Measurements'], ['Curves'], the axis arrays
    and their ['DataValues'] may be missing, at any level, and what is
    present has the expected form. *)
Definition session_shape (data : value number) : Prop :=
  exists d, data = VDict d
            /\ optional d "Measurements"
                 (fun measurements => exists l,
                      measurements = VList l /\ Forall measurement_shape l).

(** The number of curves the walk visits. *)
Definition curve_count (data : value number) : nat :=
  match measurements_of data with
  | Ok measurements =>
      list_sum (map (fun measurement =>
                       match curves_of measurement with
                       | Ok curves => List.length curves
                       | Raise _ => 0%nat
                       end) measurements)
  | Raise _ => 0%nat
  end.

End Shapes.

(** ** Nesting of braces *)

(** The number of opening braces of a text minus the number of its closing
    braces.  Every character counts, wherever it stands: a brace inside a
    quoted JSON string counts like any other. *)
Definition brace_balance (s : list char) : Z :=
  len (filter (fun c => N.eqb c open_brace) s)
  - len (filter (fun c => N.eqb c close_brace) s).

(** The double quote. *)
Definition quote : char := 34%N.

(** ** The table, row by row *)

Section Table.

Context {number : Type}.
Variable str_of : value number -> string.

(** The strings of a list, one after the other. *)
Definition join (parts : list string) : string :=
  fold_right String.append EmptyString parts.

(** The invariant of a scan record. *)
Definition consistent (scan : ScanRecord number) : Prop :=
  len (potential scan) = len (current scan).

(** What a record shows in row [i]: its two values at [i], each followed
    by a tab, and one more tab; three tabs when it has no row [i]. *)
Definition cell_text (i : nat) (scan : ScanRecord number) : string :=
  match nth_error (potential scan) i, nth_error (current scan) i with
  | Some p, Some c => (str_of p ++ tab ++ str_of c ++ tab ++ tab)%string
  | _, _ => placeholder
  end.

Definition row_text (all_scans : list (ScanRecord number)) (i : nat) : string :=
  (join (map (cell_text i) all_scans) ++ newline)%string.

End Table.

(** [f"{x}"] on sample values: an [int] is printed in decimal. *)
Definition str_of_sample (v : value Z) : string :=
  match v with
  | VNum n => str_of_int n
  | VStr s => s
  | _ => "?"
  end.

(** Records of lengths 3 and 5. *)
Definition sample_scans : list (ScanRecord Z) :=
  [mkScan 1 [VNum 10; VNum 11; VNum 12] [VNum 20; VNum 21; VNum 22];
   mkScan 2 [VNum 30; VNum 31; VNum 32; VNum 33; VNum 34]
            [VNum 40; VNum 41; VNum 42; VNum 43; VNum 44]].

(** ** Proof steps *)

(** Closes a goal [Ok [] = Ok all_scans -> Forall P all_scans]. *)
Ltac empty_result :=
  let Heq := fresh "Heq" in
  intros Heq; injection Heq as <-; constructor.

(** ** Sessions given by their series *)

Section Expected.

Context {number : Type}.

(** The two series of a curve. *)
Definition series_pair : Type := list (value number) * list (value number).

(** Both series have a value and they have as many. *)
Definition keeps (xy : series_pair) : bool :=
  match fst xy, snd xy with
  | [], _ => false
  | _, [] => false
  | xs, ys => Nat.eqb (List.length xs) (List.length ys)
  end.

(** The records of one measurement: a record for each curve that is kept,
    in the order of the curves, numbered by the place of the curve among
    all the curves of the measurement, counted from 1. *)
Definition measurement_scans (curves : list series_pair)
  : list (ScanRecord number) :=
  flat_map (fun item : Z * series_pair =>
              if keeps (snd item)
              then [mkScan (fst item + 1) (fst (snd item)) (snd (snd item))]
              else [])
           (enumerate curves).

Definition session_scans (measurements : list (list series_pair))
  : list (ScanRecord number) :=
  flat_map measurement_scans measurements.

(** The document with these measurements and curves. *)
Definition session_document (measurements : list (list series_pair))
  : value number :=
  session_of
    (map (fun curves =>
            measurement_of (map (fun xy => curve_of (fst xy) (snd xy)) curves))
         measurements).

End Expected.

(** ** Tabs *)

Fixpoint count_tabs (s : string) : nat :=
  match s with
  | EmptyString => 0%nat
  | String c rest =>
      ((if Ascii.eqb c (ascii_of_nat 9) then 1 else 0) + count_tabs rest)%nat
  end.

(** The label of the scan at position [k] (from 0) in the first header
    line, with the four tabs after it. *)
Definition scan_label (k : nat) : string :=
  ("Scan " ++ str_of_int (Z.of_nat k + 1) ++ tab ++ tab ++ tab ++ tab)%string.

(** [f"{x}"] where only numbers are expected. *)
Definition str_of_number (v : value Z) : string :=
  match v with
  | VNum n => str_of_int n
  | _ => "?"
  end.

(** A record with three potential values and one current value. *)
Definition short_current_scans : list (ScanRecord Z) :=
  [mkScan 1 [VNum 1; VNum 2; VNum 3] [VNum 4]].

(** The values of a record are printed without a tab. *)
Definition prints_without_tab {number : Type} (str_of : value number -> string)
  (scan : ScanRecord number) : Prop :=
  Forall (fun v => count_tabs (str_of v) = 0%nat) (potential scan)
  /\ Forall (fun v => count_tabs (str_of v) = 0%nat) (current scan).

(** ** What the walk appends for a curve *)

(** [added] is what the walk appends for the curve [snd item] at index
    [fst item] of its measurement.  Both series are extracted; when they
    are non-empty and equally long, [added] is one record, numbered by the
    index and holding the two series, which are the ['V'] values of the
    dict curve's [XAxisDataArray.DataValues] and [YAxisDataArray.DataValues]
    in order; when a series is empty or the lengths differ, [added] is
    empty. *)
Definition emitted_for {number : Type} (item : Z * value number)
  (added : list (ScanRecord number)) : Prop :=
  exists xs ys,
    axis_values "XAxisDataArray" (snd item) = Ok xs
    /\ axis_values "YAxisDataArray" (snd item) = Ok ys
    /\ ((0 < len xs /\ len xs = len ys
         /\ added = [mkScan (fst item + 1) xs ys]
         /\ exists curve, snd item = VDict curve
                          /\ series_at "XAxisDataArray" curve xs
                          /\ series_at "YAxisDataArray" curve ys)
        \/ ((xs = [] \/ ys = [] \/ len xs <> len ys) /\ added = [])).

(** * Properties *)

Section LoopFacts.

Context {number : Type}.

Lemma for_each_appends {A : Type} (body : A -> M number unit) (f : A -> contribution) :
  appends body f ->
  forall items all_scans,
    for_each body items all_scans
    = (snd (gather f items), all_scans ++ fst (gather f items)).
Proof.
  intros Hbody items; induction items as [|x rest IH]; intros all_scans; simpl.
  - unfold ret; now rewrite app_nil_r.
  - unfold bind; rewrite Hbody.
    destruct (f x) as [added [[]|e]]; simpl.
    + rewrite IH. destruct (gather f rest) as [more status]; simpl.
      now rewrite app_assoc.
    + reflexivity.
Qed.

Lemma keep_scan_run (curve_idx : Z) (xs ys : list (value number)) all_scans :
  keep_scan curve_idx xs ys all_scans
  = (Ok tt, all_scans ++ (if aligned xs ys then [mkScan (curve_idx + 1) xs ys] else [])).
Proof.
  unfold keep_scan, aligned.
  destruct (len xs >? 0), (len ys >? 0); simpl;
    try (unfold ret; now rewrite app_nil_r).
  destruct (len xs =? len ys); simpl; [reflexivity|].
  unfold ret; now rewrite app_nil_r.
Qed.

Lemma process_curve_appends : appends (@process_curve number) scans_of_curve.
Proof.
  intros [curve_idx curve] all_scans.
  unfold process_curve, scans_of_curve, bind, lift; simpl.
  destruct (axis_values "XAxisDataArray" curve) as [xs|e]; simpl;
    [|now rewrite app_nil_r].
  destruct (axis_values "YAxisDataArray" curve) as [ys|e]; simpl;
    [|now rewrite app_nil_r].
  apply keep_scan_run.
Qed.

Lemma process_measurement_appends :
  appends (@process_measurement number) scans_of_measurement.
Proof.
  intros [measurement_idx measurement] all_scans.
  unfold process_measurement, scans_of_measurement, curves_of, bind, lift, rbind; simpl.
  destruct (py_contains "Curves" measurement) as [[|]|e]; simpl.
  - destruct (py_getitem measurement "Curves") as [c|e]; simpl;
      [|now rewrite app_nil_r].
    destruct (py_iter c) as [curves|e]; simpl; [|now rewrite app_nil_r].
    apply for_each_appends, process_curve_appends.
  - unfold ret; now rewrite app_nil_r.
  - now rewrite app_nil_r.
Qed.

Lemma assemble_run (data : value number) all_scans :
  assemble data all_scans
  = (snd (scans_of_document data), all_scans ++ fst (scans_of_document data)).
Proof.
  unfold assemble, scans_of_document, measurements_of, bind, lift, rbind, ret.
  destruct (py_contains "Measurements" data) as [[|]|e]; simpl;
    try now rewrite app_nil_r.
  destruct (py_getitem data "Measurements") as [ms|e]; simpl;
    try now rewrite app_nil_r.
  destruct (py_len ms) as [n|e]; simpl; try now rewrite app_nil_r.
  destruct (n >? 0); simpl; try now rewrite app_nil_r.
  destruct (py_iter ms) as [measurements|e]; simpl; try now rewrite app_nil_r.
  apply for_each_appends, process_measurement_appends.
Qed.

End LoopFacts.

Section GatherFacts.

Context {number : Type} {A : Type}.
Variable f : A -> @contribution number.

Lemma gather_ok (items : list A) :
  snd (gather f items) = Ok tt ->
  fst (gather f items) = List.concat (map (fun x => fst (f x)) items)
  /\ Forall (fun x => snd (f x) = Ok tt) items.
Proof.
  induction items as [|x rest IH]; simpl; intros Hok.
  - split; [reflexivity|constructor].
  - destruct (f x) as [added [[]|e]] eqn:Hx; simpl in *.
    + destruct (gather f rest) as [more status]; simpl in *.
      destruct (IH Hok) as [-> Hall].
      split; [reflexivity|constructor; [now rewrite Hx|assumption]].
    + discriminate.
Qed.

Lemma gather_in (items : list A) r :
  In r (fst (gather f items)) -> exists x, In x items /\ In r (fst (f x)).
Proof.
  induction items as [|x rest IH]; simpl; intros Hin; [contradiction|].
  destruct (f x) as [added [[]|e]] eqn:Hx; simpl in *.
  - destruct (gather f rest) as [more status]; simpl in *.
    apply in_app_or in Hin as [Hin|Hin].
    + exists x; rewrite Hx; auto.
    + destruct (IH Hin) as (y & Hy & Hr); eauto.
  - exists x; rewrite Hx; auto.
Qed.

Lemma gather_length (items : list A) :
  (forall x, (List.length (fst (f x)) <= 1)%nat) ->
  (List.length (fst (gather f items)) <= List.length items)%nat.
Proof.
  intros Hone; induction items as [|x rest IH]; simpl; [lia|].
  specialize (Hone x).
  destruct (f x) as [added [[]|e]]; simpl in *.
  - destruct (gather f rest) as [more status]; simpl in *.
    rewrite length_app; lia.
  - lia.
Qed.

Lemma gather_all_ok (items : list A) :
  Forall (fun x => snd (f x) = Ok tt) items -> snd (gather f items) = Ok tt.
Proof.
  induction 1 as [|x rest Hx _ IH]; simpl; [reflexivity|].
  destruct (f x) as [added status]; simpl in *; subst.
  now destruct (gather f rest).
Qed.

End GatherFacts.

Section EnumerateFacts.

Context {A : Type}.

Lemma enumerate_from_nth (l : list A) : forall k n,
  nth_error (enumerate_from k l) n
  = option_map (fun x => (k + Z.of_nat n, x)) (nth_error l n).
Proof.
  induction l as [|x rest IH]; intros k [|n]; simpl; try reflexivity.
  - now rewrite Z.add_0_r.
  - rewrite IH. destruct (nth_error rest n); simpl; [|reflexivity].
    do 2 f_equal; lia.
Qed.

Lemma enumerate_from_in (l : list A) : forall k i x,
  In (i, x) (enumerate_from k l) ->
  exists n, nth_error l n = Some x /\ i = k + Z.of_nat n.
Proof.
  intros k i x Hin. apply In_nth_error in Hin as [n Hn].
  rewrite enumerate_from_nth in Hn.
  destruct (nth_error l n) as [y|] eqn:Hy; simpl in Hn; [|discriminate].
  injection Hn as <- <-. now exists n.
Qed.

Lemma enumerate_from_length (l : list A) : forall k,
  List.length (enumerate_from k l) = List.length l.
Proof. induction l; intros k; simpl; [reflexivity|now rewrite IHl]. Qed.

End EnumerateFacts.

(** ** Curves *)

Section CurveFacts.

Context {number : Type}.

Lemma comprehension_exposes (points vs : list (value number)) :
  Forall2 exposes points vs ->
  comprehension (fun point => py_getitem point "V") points = Ok vs.
Proof.
  induction 1 as [|point v points vs (d & -> & Hv) _ IH]; simpl; [reflexivity|].
  now rewrite Hv, IH.
Qed.

(** The code extracts the series the data model describes. *)
Lemma axis_values_series (axis : string) (curve : list (string * value number)) vs :
  series_at axis curve vs -> axis_values axis (VDict curve) = Ok vs.
Proof.
  unfold axis_values; intros [Hnone|array Haxis Hnone|array points ws Haxis Hvalues Hpts];
    simpl.
  - now rewrite Hnone.
  - rewrite Haxis; simpl. now rewrite Hnone.
  - rewrite Haxis; simpl. rewrite Hvalues; simpl.
    now apply comprehension_exposes.
Qed.

Lemma aligned_spec (xs ys : list (value number)) :
  aligned xs ys = true <-> 0 < len xs /\ len xs = len ys.
Proof.
  unfold aligned. rewrite !andb_true_iff, !Z.gtb_lt, Z.eqb_eq. lia.
Qed.

Lemma not_aligned_spec (xs ys : list (value number)) :
  aligned xs ys = false <-> xs = [] \/ ys = [] \/ len xs <> len ys.
Proof.
  rewrite <- not_true_iff_false, aligned_spec. unfold len.
  destruct xs as [|x xs], ys as [|y ys]; simpl List.length.
  - split; [auto|lia].
  - split; [auto|lia].
  - split; [auto|lia].
  - split.
    + intros H. right; right. lia.
    + intros [H|[H|H]]; try discriminate. lia.
Qed.

Lemma process_curve_run (curve_idx : Z) (curve : value number) xs ys all_scans :
  axis_values "XAxisDataArray" curve = Ok xs ->
  axis_values "YAxisDataArray" curve = Ok ys ->
  process_curve (curve_idx, curve) all_scans
  = (Ok tt, all_scans ++ (if aligned xs ys then [mkScan (curve_idx + 1) xs ys] else [])).
Proof.
  intros Hx Hy. rewrite process_curve_appends.
  unfold scans_of_curve; simpl. now rewrite Hx, Hy.
Qed.

End CurveFacts.

(** One step of the loop over curves, for a curve of the data model.  A
    curve whose two series are both non-empty and equally long makes the
    step append exactly one record, holding the two series (the ['V']
    values of [XAxisDataArray.DataValues] and [YAxisDataArray.DataValues],
    in order) and nothing else; a curve with an empty series, or with two
    series of different lengths, appends nothing. *)
Theorem curve_emits_one_record_iff_aligned
  {number : Type} (curve_idx : Z) (curve : list (string * value number))
  (xs ys : list (value number)) (all_scans : list (ScanRecord number)) :
  series_at "XAxisDataArray" curve xs ->
  series_at "YAxisDataArray" curve ys ->
  (0 < len xs /\ len xs = len ys ->
   process_curve (curve_idx, VDict curve) all_scans
   = (Ok tt, all_scans ++ [mkScan (curve_idx + 1) xs ys]))
  /\ (xs = [] \/ ys = [] \/ len xs <> len ys ->
      process_curve (curve_idx, VDict curve) all_scans = (Ok tt, all_scans))
  /\ ((exists r, snd (process_curve (curve_idx, VDict curve) all_scans)
                 = all_scans ++ [r])
      <-> 0 < len xs /\ len xs = len ys).
Proof.
  intros Hx%axis_values_series Hy%axis_values_series.
  rewrite (process_curve_run _ _ _ _ _ Hx Hy).
  destruct (aligned xs ys) eqn:Hal.
  - pose proof (proj1 (aligned_spec xs ys) Hal) as Hlen.
    split; [reflexivity|]. split.
    + intros Hbad%not_aligned_spec. congruence.
    + split; [intros _; exact Hlen|intros _; eexists; reflexivity].
  - pose proof (proj1 (not_aligned_spec xs ys) Hal) as Hbad.
    split; [|split].
    + intros Hlen%aligned_spec. congruence.
    + intros _. now rewrite app_nil_r.
    + split.
      * intros [r Hr]; simpl in Hr. rewrite app_nil_r in Hr.
        apply (f_equal (@List.length _)) in Hr.
        rewrite length_app in Hr; simpl in Hr. lia.
      * intros Hlen%aligned_spec. congruence.
Qed.

(** A curve with two readings on each axis contributes scan 1. *)
Lemma curve_emits_one_record_witness :
  series_at (number := Z) "XAxisDataArray"
    [("XAxisDataArray", data_array [VNum 0; VNum 1]);
     ("YAxisDataArray", data_array [VNum 5; VNum 6])] [VNum 0; VNum 1]
  /\ process_curve (0, curve_of [VNum 0; VNum 1] [VNum 5; VNum 6]) []
     = (Ok tt, [mkScan 1 [VNum 0; VNum 1] [VNum 5; VNum 6]]).
Proof.
  assert (Hx : series_at (number := Z) "XAxisDataArray"
    [("XAxisDataArray", data_array [VNum 0; VNum 1]);
     ("YAxisDataArray", data_array [VNum 5; VNum 6])] [VNum 0; VNum 1]).
  { eapply series_values; [reflexivity|reflexivity|].
    repeat constructor; eexists; split; reflexivity. }
  assert (Hy : series_at (number := Z) "YAxisDataArray"
    [("XAxisDataArray", data_array [VNum 0; VNum 1]);
     ("YAxisDataArray", data_array [VNum 5; VNum 6])] [VNum 5; VNum 6]).
  { eapply series_values; [reflexivity|reflexivity|].
    repeat constructor; eexists; split; reflexivity. }
  split; [exact Hx|].
  apply (proj1 (curve_emits_one_record_iff_aligned 0 _ _ _ [] Hx Hy)).
  split; [reflexivity|reflexivity].
Defined.

(** ** Measurements and documents *)

Section WalkFacts.

Context {number : Type}.

Lemma scans_of_curve_in (item : Z * value number) r :
  In r (fst (scans_of_curve item)) ->
  scans_of_curve item = ([r], Ok tt)
  /\ scan_number r = fst item + 1
  /\ axis_values "XAxisDataArray" (snd item) = Ok (potential r)
  /\ axis_values "YAxisDataArray" (snd item) = Ok (current r).
Proof.
  unfold scans_of_curve.
  destruct (axis_values "XAxisDataArray" (snd item)) as [xs|e]; [|contradiction].
  destruct (axis_values "YAxisDataArray" (snd item)) as [ys|e]; [|contradiction].
  destruct (aligned xs ys); simpl; [|contradiction].
  intros [<-|[]]; simpl; auto.
Qed.

Lemma scans_of_curve_short (item : Z * value number) :
  (List.length (fst (scans_of_curve item)) <= 1)%nat.
Proof.
  unfold scans_of_curve.
  destruct (axis_values "XAxisDataArray" (snd item)); simpl; [|lia].
  destruct (axis_values "YAxisDataArray" (snd item)); simpl; [|lia].
  destruct (aligned _ _); simpl; lia.
Qed.

(** A record among those a measurement contributes comes from the curve
    at one position of the measurement's curve list. *)
Lemma scans_of_measurement_in (item : Z * value number) r :
  In r (fst (scans_of_measurement item)) ->
  exists curves i curve,
    curves_of (snd item) = Ok curves
    /\ nth_error curves i = Some curve
    /\ scan_number r = Z.of_nat i + 1
    /\ process_curve (Z.of_nat i, curve) [] = (Ok tt, [r]).
Proof.
  unfold scans_of_measurement.
  destruct (curves_of (snd item)) as [curves|e]; [|contradiction].
  intros ([k curve] & Hin & Hr)%gather_in.
  apply enumerate_from_in in Hin as (i & Hnth & ->).
  apply scans_of_curve_in in Hr as (Hrun & Hnum & _).
  exists curves, i, curve.
  split; [reflexivity|]. split; [assumption|].
  split; [cbn [fst] in Hnum; lia|].
  rewrite process_curve_appends.
  replace (Z.of_nat i) with (0 + Z.of_nat i) by lia.
  now rewrite Hrun.
Qed.

Lemma axis_values_curve_of (xs ys : list (value number)) :
  axis_values "XAxisDataArray" (curve_of xs ys) = Ok xs
  /\ axis_values "YAxisDataArray" (curve_of xs ys) = Ok ys.
Proof.
  assert (Hpts : forall vs : list (value number),
             Forall2 exposes (map data_point vs) vs).
  { induction vs; simpl; constructor; [|assumption].
    eexists; split; reflexivity. }
  split; apply axis_values_series;
    (eapply series_values; [reflexivity|reflexivity|apply Hpts]).
Qed.

Lemma scans_of_curve_of (i : Z) (xs ys : list (value number)) :
  scans_of_curve (i, curve_of xs ys)
  = (if aligned xs ys then [mkScan (i + 1) xs ys] else [], Ok tt).
Proof.
  unfold scans_of_curve.
  destruct (axis_values_curve_of xs ys) as [Hx Hy].
  cbn [snd fst]. now rewrite Hx, Hy.
Qed.

Lemma curves_of_measurement_of (curves : list (value number)) :
  curves_of (measurement_of curves) = Ok curves.
Proof. reflexivity. Qed.

Lemma measurements_of_session_of (measurements : list (value number)) :
  measurements_of (session_of measurements) = Ok measurements.
Proof. now destruct measurements. Qed.

Lemma scans_of_measurement_of (k : Z) (curves : list (value number)) :
  scans_of_measurement (k, measurement_of curves)
  = gather scans_of_curve (enumerate curves).
Proof. reflexivity. Qed.

End WalkFacts.

(** C3.  The scan number of a record is the position of its curve in the
    curve list of its measurement, counted from 1: whenever the walk over
    a document ends normally, every record of the result comes from some
    curve at index [i] of some measurement's curves and carries the number
    [i + 1].  The same holds for one measurement on its own, whatever was
    collected before it and wherever the measurement stands, so the
    numbering starts again with each measurement.  In particular, when the
    first curve of a measurement is dropped for a length mismatch and the
    second is kept, the record of the second has number 2, and a curve
    kept at the head of the next measurement has number 1 again. *)
Theorem scan_number_is_source_position {number : Type} :
  (forall (data : value number) out,
      assemble data [] = (Ok tt, out) ->
      Forall (fun r =>
                exists measurements measurement curves i curve,
                  measurements_of data = Ok measurements
                  /\ In measurement measurements
                  /\ curves_of measurement = Ok curves
                  /\ nth_error curves i = Some curve
                  /\ scan_number r = Z.of_nat i + 1
                  /\ process_curve (Z.of_nat i, curve) [] = (Ok tt, [r])) out)
  /\ (forall measurement_idx (measurement : value number) all_scans out,
         process_measurement (measurement_idx, measurement) all_scans = (Ok tt, out) ->
         exists curves added,
           curves_of measurement = Ok curves
           /\ out = all_scans ++ added
           /\ Forall (fun r =>
                        exists i curve,
                          nth_error curves i = Some curve
                          /\ scan_number r = Z.of_nat i + 1
                          /\ process_curve (Z.of_nat i, curve) [] = (Ok tt, [r]))
                     added)
  /\ (forall (x1 y1 x2 y2 x3 y3 : list (value number)),
         0 < len x1 -> 0 < len y1 -> len x1 <> len y1 ->
         0 < len x2 -> len x2 = len y2 ->
         0 < len x3 -> len x3 = len y3 ->
         assemble (session_of [measurement_of [curve_of x1 y1; curve_of x2 y2];
                               measurement_of [curve_of x3 y3]]) []
         = (Ok tt, [mkScan 2 x2 y2; mkScan 1 x3 y3])).
Proof.
  split; [|split].
  - intros data out Hrun. rewrite assemble_run in Hrun.
    injection Hrun as Hstatus <-. simpl.
    apply Forall_forall; intros r Hr.
    unfold scans_of_document in *.
    destruct (measurements_of data) as [measurements|e]; [|contradiction].
    apply gather_in in Hr as ([k measurement] & Hin & Hr).
    apply enumerate_from_in in Hin as (n & Hnth & _).
    apply scans_of_measurement_in in Hr as (curves & i & curve & H1 & H2 & H3 & H4).
    exists measurements, measurement, curves, i, curve.
    repeat split; try assumption.
    eapply nth_error_In; eassumption.
  - intros measurement_idx measurement all_scans out Hrun.
    rewrite process_measurement_appends in Hrun.
    injection Hrun as Hstatus <-.
    pose proof (scans_of_measurement_in (measurement_idx, measurement)) as Hin.
    unfold scans_of_measurement in *; simpl in *.
    destruct (curves_of measurement) as [curves|e]; [|discriminate].
    exists curves, (fst (gather scans_of_curve (enumerate curves))).
    repeat split.
    apply Forall_forall; intros r Hr.
    destruct (Hin r Hr) as (curves' & i & curve & Heq & H2 & H3 & H4).
    injection Heq as <-. eauto.
  - intros x1 y1 x2 y2 x3 y3 Hx1 Hy1 Hne Hx2 Hxy2 Hx3 Hxy3.
    rewrite assemble_run.
    unfold scans_of_document. rewrite measurements_of_session_of.
    cbn [enumerate enumerate_from gather].
    rewrite !scans_of_measurement_of.
    cbn [enumerate enumerate_from gather].
    rewrite !scans_of_curve_of.
    replace (aligned x1 y1) with false
      by (symmetry; apply not_aligned_spec; auto).
    replace (aligned x2 y2) with true
      by (symmetry; apply aligned_spec; auto).
    replace (aligned x3 y3) with true
      by (symmetry; apply aligned_spec; auto).
    reflexivity.
Qed.

Section OrderFacts.

Context {number : Type}.

Lemma Forall2_map_self {A B : Type} (R : A -> B -> Prop) (g : A -> B) (l : list A) :
  Forall (fun x => R x (g x)) l -> Forall2 R l (map g l).
Proof. induction 1; simpl; constructor; assumption. Qed.

Lemma Forall2_enumerate {A B : Type} (R : A -> B -> Prop) (g : Z * A -> B)
  (l : list A) : forall k,
  Forall (fun item => R (snd item) (g item)) (enumerate_from k l) ->
  Forall2 R l (map g (enumerate_from k l)).
Proof.
  induction l as [|x rest IH]; intros k H; simpl; [constructor|].
  inversion H; subst. constructor; [assumption|now apply IH].
Qed.

(** Within one measurement the numbers of the kept curves increase. *)
Lemma gather_curves_sorted (curves : list (value number)) : forall k,
  StronglySorted Z.lt
    (map scan_number (fst (gather scans_of_curve (enumerate_from k curves))))
  /\ Forall (fun r => k < scan_number r)
            (fst (gather scans_of_curve (enumerate_from k curves))).
Proof.
  induction curves as [|curve rest IH]; intros k; simpl.
  - split; constructor.
  - destruct (IH (k + 1)) as [Hsorted Hlow].
    unfold scans_of_curve at 1 3; cbn [fst snd].
    destruct (axis_values "XAxisDataArray" curve) as [xs|e];
      [|split; constructor].
    destruct (axis_values "YAxisDataArray" curve) as [ys|e];
      [|split; constructor].
    destruct (gather scans_of_curve (enumerate_from (k + 1) rest))
      as [more status]; cbn [fst] in *.
    assert (Hlow' : Forall (fun r => k < scan_number r) more).
    { eapply Forall_impl; [|exact Hlow]. simpl; intros; lia. }
    destruct (aligned xs ys); cbn [app fst map scan_number].
    + split.
      * constructor; [assumption|].
        apply Forall_map. eapply Forall_impl; [|exact Hlow]. now simpl.
      * constructor; [simpl; lia|assumption].
    + split; assumption.
Qed.

Lemma scans_of_measurement_ok (item : Z * value number) :
  snd (scans_of_measurement item) = Ok tt ->
  StronglySorted Z.lt (map scan_number (fst (scans_of_measurement item)))
  /\ exists curves per_curve,
       curves_of (snd item) = Ok curves
       /\ fst (scans_of_measurement item) = List.concat per_curve
       /\ Forall2 (fun curve_item added =>
                     process_curve curve_item [] = (Ok tt, added))
                  (enumerate curves) per_curve.
Proof.
  unfold scans_of_measurement.
  destruct (curves_of (snd item)) as [curves|e]; [|discriminate].
  intros Hok. split; [apply gather_curves_sorted|].
  destruct (gather_ok _ _ Hok) as [Hcat Hall].
  exists curves, (map (fun x => fst (scans_of_curve x)) (enumerate curves)).
  repeat split; [assumption|].
  apply Forall2_map_self.
  eapply Forall_impl; [|exact Hall].
  intros curve_item Hstatus; cbn beta in *.
  rewrite process_curve_appends, Hstatus. reflexivity.
Qed.

End OrderFacts.

(** C9.  The result keeps the order of the document.  When the walk ends
    normally its result is the concatenation, measurement after
    measurement in document order, of what each measurement contributes;
    what a measurement contributes is the concatenation, curve after curve
    in the order of its curve list, of what each curve contributes; and
    the scan numbers within one measurement's contribution are strictly
    increasing. *)
Theorem output_preserves_document_order
  {number : Type} (data : value number) (out : list (ScanRecord number)) :
  assemble data [] = (Ok tt, out) ->
  exists measurements groups,
    measurements_of data = Ok measurements
    /\ out = List.concat groups
    /\ Forall2
         (fun measurement group =>
            StronglySorted Z.lt (map scan_number group)
            /\ exists curves per_curve,
                 curves_of measurement = Ok curves
                 /\ group = List.concat per_curve
                 /\ Forall2 (fun curve_item added =>
                               process_curve curve_item [] = (Ok tt, added))
                            (enumerate curves) per_curve)
         measurements groups.
Proof.
  intros Hrun. rewrite assemble_run in Hrun.
  injection Hrun as Hstatus <-. cbn [app].
  unfold scans_of_document in *.
  destruct (measurements_of data) as [measurements|e]; [|discriminate].
  destruct (gather_ok _ _ Hstatus) as [Hcat Hall].
  exists measurements,
    (map (fun x => fst (scans_of_measurement x)) (enumerate measurements)).
  split; [reflexivity|]. split; [assumption|].
  apply Forall2_enumerate.
  eapply Forall_impl; [|exact Hall].
  intros item Hok; cbn beta in *.
  exact (scans_of_measurement_ok item Hok).
Qed.

(** On the sample document the kept records are scan 2 of the first
    measurement, then scan 1 of the second. *)
Lemma output_preserves_document_order_witness :
  assemble sample_session []
  = (Ok tt, [mkScan 2 [VNum 0; VNum 5] [VNum 7; VNum 8];
             mkScan 1 [VNum 3] [VNum 4]])
  /\ exists measurements groups,
       measurements_of sample_session = Ok measurements
       /\ [mkScan 2 [VNum 0; VNum 5] [VNum 7; VNum 8];
           mkScan 1 [VNum 3] [VNum 4]] = List.concat groups
       /\ Forall2
            (fun measurement group =>
               StronglySorted Z.lt (map scan_number group)
               /\ exists curves per_curve,
                    curves_of measurement = Ok curves
                    /\ group = List.concat per_curve
                    /\ Forall2 (fun curve_item added =>
                                  process_curve curve_item [] = (Ok tt, added))
                               (enumerate curves) per_curve)
            measurements groups.
Proof.
  split; [reflexivity|].
  apply (output_preserves_document_order sample_session).
  reflexivity.
Defined.

(** ** Structural gaps *)

Section GapFacts.

Context {number : Type}.

Lemma Forall_enumerate {A : Type} (P : A -> Prop) (l : list A) : forall k,
  Forall P l -> Forall (fun item => P (snd item)) (enumerate_from k l).
Proof.
  induction l as [|x rest IH]; intros k H; simpl; [constructor|].
  inversion H; subst. constructor; [assumption|now apply IH].
Qed.

Lemma map_snd_enumerate {A : Type} (l : list A) : forall k,
  map snd (enumerate_from k l) = l.
Proof. induction l; intros k; simpl; [reflexivity|now rewrite IHl]. Qed.

Lemma points_expose (points : list (value number)) :
  Forall point_shape points -> exists vs, Forall2 exposes points vs.
Proof.
  induction 1 as [|point points [v Hv] _ [vs IH]].
  - exists []; constructor.
  - exists (v :: vs); now constructor.
Qed.

Lemma optional_array_series (d : list (string * value number)) (axis : string) :
  optional d axis array_shape -> exists vs, series_at axis d vs.
Proof.
  unfold optional. destruct (dict_get d axis) as [array|] eqn:Haxis.
  - intros (array_items & -> & Hvalues). unfold optional in Hvalues.
    destruct (dict_get array_items "DataValues") as [values|] eqn:Hdv.
    + destruct Hvalues as (points & -> & Hpoints).
      destruct (points_expose _ Hpoints) as [vs Hvs].
      exists vs. eapply series_values; eassumption.
    + exists []. eapply series_no_values; eassumption.
  - intros _. exists []. now apply series_no_axis.
Qed.

Lemma curve_shape_ok (item : Z * value number) :
  curve_shape (snd item) -> snd (scans_of_curve item) = Ok tt.
Proof.
  intros (d & Hd & [xs Hx]%optional_array_series & [ys Hy]%optional_array_series).
  unfold scans_of_curve. rewrite Hd.
  now rewrite (axis_values_series _ _ _ Hx), (axis_values_series _ _ _ Hy).
Qed.

Lemma measurement_shape_curves (measurement : value number) :
  measurement_shape measurement ->
  exists curves, curves_of measurement = Ok curves /\ Forall curve_shape curves.
Proof.
  intros (d & -> & Hcurves). unfold optional in Hcurves.
  unfold curves_of; simpl.
  destruct (dict_get d "Curves") as [curves|]; simpl.
  - destruct Hcurves as (l & -> & Hl). now exists l.
  - exists []. split; [reflexivity|constructor].
Qed.

Lemma measurement_shape_ok (item : Z * value number) :
  measurement_shape (snd item) -> snd (scans_of_measurement item) = Ok tt.
Proof.
  intros (curves & Hcurves & Hshape)%measurement_shape_curves.
  unfold scans_of_measurement. rewrite Hcurves.
  apply gather_all_ok.
  eapply Forall_impl; [|apply Forall_enumerate; exact Hshape].
  intros curve_item; apply curve_shape_ok.
Qed.

Lemma session_shape_measurements (data : value number) :
  session_shape data ->
  exists measurements,
    measurements_of data = Ok measurements
    /\ Forall measurement_shape measurements.
Proof.
  intros (d & -> & Hms). unfold optional in Hms.
  unfold measurements_of; simpl.
  destruct (dict_get d "Measurements") as [measurements|]; simpl.
  - destruct Hms as (l & -> & Hl). simpl.
    destruct (len l >? 0); [now exists l|].
    exists []. split; [reflexivity|constructor].
  - exists []. split; [reflexivity|constructor].
Qed.

Lemma session_shape_ok (data : value number) :
  session_shape data -> snd (scans_of_document data) = Ok tt.
Proof.
  intros (measurements & Hms & Hshape)%session_shape_measurements.
  unfold scans_of_document. rewrite Hms.
  apply gather_all_ok.
  eapply Forall_impl; [|apply Forall_enumerate; exact Hshape].
  intros item; apply measurement_shape_ok.
Qed.

Lemma gather_length_sum {A : Type} (f : A -> @contribution number)
  (bound : A -> nat) (items : list A) :
  (forall x, (List.length (fst (f x)) <= bound x)%nat) ->
  (List.length (fst (gather f items)) <= list_sum (map bound items))%nat.
Proof.
  intros Hbound; induction items as [|x rest IH]; simpl; [lia|].
  specialize (Hbound x).
  destruct (f x) as [added [[]|e]]; simpl in *.
  - destruct (gather f rest) as [more status]; simpl in *.
    rewrite length_app; lia.
  - lia.
Qed.

Lemma scans_of_measurement_short (item : Z * value number) :
  (List.length (fst (scans_of_measurement item))
   <= match curves_of (snd item) with
      | Ok curves => List.length curves
      | Raise _ => 0
      end)%nat.
Proof.
  unfold scans_of_measurement.
  destruct (curves_of (snd item)) as [curves|e]; simpl; [|lia].
  rewrite <- (enumerate_from_length curves 0).
  apply gather_length, scans_of_curve_short.
Qed.

(** There are never more records than curves. *)
Lemma scans_of_document_short (data : value number) :
  (List.length (fst (scans_of_document data)) <= curve_count data)%nat.
Proof.
  unfold scans_of_document, curve_count.
  destruct (measurements_of data) as [measurements|e]; simpl; [|lia].
  rewrite <- (map_snd_enumerate measurements 0) at 2.
  rewrite map_map.
  apply gather_length_sum. intros item; apply scans_of_measurement_short.
Qed.

End GapFacts.

(** ** The function as a whole *)

Section ParseFacts.

Context {number : Type}.
Variable json_loads : list char -> result (value number).

(** The body of the [try], once the payload has been found and parsed. *)
Lemma parse_body_run (content json_content : list char) (data : value number)
  all_scans :
  json_span (strip_bom content) = JsonContent json_content ->
  json_loads json_content = Ok data ->
  parse_body json_loads content all_scans
  = match assemble data all_scans with
    | (Ok _, all_scans') => (Ok all_scans', all_scans')
    | (Raise e, all_scans') => (Raise e, all_scans')
    end.
Proof.
  intros Hspan Hloads. unfold parse_body. rewrite Hspan.
  unfold bind at 1, lift at 1. rewrite Hloads.
  unfold bind at 1. destruct (assemble data all_scans) as [[[]|e] st]; reflexivity.
Qed.

(** An exception of the walk leaves the [try] block with [all_scans] as
    the walk left it; so does an exception of [json.loads] or of the
    reading of the file, with [all_scans] still empty. *)
Lemma walk_raises_in_try_body (content json_content : list char)
  (data : value number) e assembled :
  json_span (strip_bom content) = JsonContent json_content ->
  json_loads json_content = Ok data ->
  assemble data [] = (Raise e, assembled) ->
  try_body json_loads (Ok content) [] = (Raise e, assembled).
Proof.
  intros Hspan Hloads Hraise. unfold try_body. unfold bind at 1, lift at 1.
  now rewrite (parse_body_run _ _ _ _ Hspan Hloads), Hraise.
Qed.

Lemma loads_raises_in_try_body (content json_content : list char) e :
  json_span (strip_bom content) = JsonContent json_content ->
  json_loads json_content = Raise e ->
  try_body json_loads (Ok content) [] = (Raise e, []).
Proof.
  intros Hspan Hloads. unfold try_body, parse_body. unfold bind at 1, lift at 1.
  rewrite Hspan. unfold bind at 1, lift at 1. now rewrite Hloads.
Qed.

Lemma read_raises_in_try_body e :
  try_body json_loads (Raise e) [] = (Raise e, []).
Proof. reflexivity. Qed.

(** The [try] block in terms of the extraction. *)
Lemma try_body_extract (content : list char) all_scans :
  try_body json_loads (Ok content) all_scans
  = match extract json_loads (strip_bom content) with
    | NoPayload | IncompletePayload => (Ok [], all_scans)
    | MalformedJson e => (Raise e, all_scans)
    | ParsedSession _ data =>
        match assemble data all_scans with
        | (Ok _, all_scans') => (Ok all_scans', all_scans')
        | (Raise e, all_scans') => (Raise e, all_scans')
        end
    end.
Proof.
  unfold try_body, extract. unfold bind at 1, lift at 1.
  destruct (json_span (strip_bom content)) as [| |json_content] eqn:Hspan;
    try (unfold parse_body; now rewrite Hspan).
  destruct (json_loads json_content) as [data|e] eqn:Hloads.
  - exact (parse_body_run _ _ _ _ Hspan Hloads).
  - unfold parse_body. rewrite Hspan. unfold bind at 1, lift at 1.
    now rewrite Hloads.
Qed.

Lemma run_parse_returns (file : result (list char)) :
  exists all_scans st, run_parse json_loads file = (Ok all_scans, st).
Proof.
  unfold run_parse, try_except.
  destruct (try_body json_loads file []) as [[all_scans|e] st]; [eauto|].
  exists [], st. reflexivity.
Qed.

Lemma parse_returns_a_list (file : result (list char)) :
  exists all_scans, parse_pessession_file json_loads file = Ok all_scans.
Proof.
  unfold parse_pessession_file.
  destruct (run_parse_returns file) as (all_scans & st & ->).
  now exists all_scans.
Qed.

End ParseFacts.

(** C2.  Parsing never fails.  Whatever reading the file gave, and whatever
    [json.loads] returns or raises, [parse_pessession_file] returns a list:
    no exception leaves it.  On a document in which ['Measurements'],
    ['Curves'], an axis array or its ['DataValues'] is missing at any
    level, the walk raises nothing at all and appends at most one record
    per curve.  A document without ['Measurements'] leaves [all_scans] as
    it was, and parsing a file that holds such a document returns the
    empty list without any exception having been raised. *)
Theorem parse_never_fails
  {number : Type} (json_loads : list char -> result (value number)) :
  (forall file, exists all_scans, parse_pessession_file json_loads file = Ok all_scans)
  /\ (forall (data : value number) all_scans,
         session_shape data ->
         exists added,
           assemble data all_scans = (Ok tt, all_scans ++ added)
           /\ (List.length added <= curve_count data)%nat)
  /\ (forall (d : list (string * value number)) all_scans,
         dict_get d "Measurements" = None ->
         assemble (VDict d) all_scans = (Ok tt, all_scans))
  /\ (forall content json_content (d : list (string * value number)),
         json_span (strip_bom content) = JsonContent json_content ->
         json_loads json_content = Ok (VDict d) ->
         dict_get d "Measurements" = None ->
         try_body json_loads (Ok content) [] = (Ok [], [])
         /\ parse_pessession_file json_loads (Ok content) = Ok []).
Proof.
  assert (Hmissing : forall (d : list (string * value number)) all_scans,
             dict_get d "Measurements" = None ->
             assemble (VDict d) all_scans = (Ok tt, all_scans)).
  { intros d all_scans Hnone. rewrite assemble_run.
    unfold scans_of_document, measurements_of; simpl.
    rewrite Hnone; simpl. now rewrite app_nil_r. }
  split; [|split; [|split]].
  - apply parse_returns_a_list.
  - intros data all_scans Hshape.
    exists (fst (scans_of_document data)).
    rewrite assemble_run, (session_shape_ok data Hshape).
    split; [reflexivity|apply scans_of_document_short].
  - exact Hmissing.
  - intros content json_content d Hspan Hloads Hnone.
    assert (Hbody : try_body json_loads (Ok content) [] = (Ok [], [])).
    { unfold try_body. unfold bind at 1, lift at 1.
      rewrite (parse_body_run _ _ _ _ _ Hspan Hloads).
      now rewrite (Hmissing d [] Hnone). }
    split; [exact Hbody|].
    unfold parse_pessession_file, run_parse, try_except.
    now rewrite Hbody.
Qed.

(** C8.  The result of a file is all or nothing.  When an exception is
    raised anywhere in the [try] block, [parse_pessession_file] returns the
    empty list: the records appended to [all_scans] before the exception
    ([assembled]) are not returned. *)
Theorem exception_discards_assembled_scans
  {number : Type} (json_loads : list char -> result (value number))
  (file : result (list char)) (e : exn) (assembled : list (ScanRecord number)) :
  try_body json_loads file [] = (Raise e, assembled) ->
  run_parse json_loads file = (Ok [], assembled)
  /\ parse_pessession_file json_loads file = Ok [].
Proof.
  intros Hraise.
  assert (Hrun : run_parse json_loads file = (Ok [], assembled)).
  { unfold run_parse, try_except. now rewrite Hraise. }
  split; [exact Hrun|].
  unfold parse_pessession_file. now rewrite Hrun.
Qed.

(** The second curve of [broken_session] has a data point without ['V']:
    the record of the first curve had been appended when [KeyError] was
    raised, and the file yields the empty list. *)
Lemma exception_discards_assembled_scans_witness :
  assemble broken_session []
  = (Raise (KeyError "V"), [mkScan 1 [VNum 0; VNum 5] [VNum 7; VNum 8]])
  /\ try_body (loads_as broken_session) (Ok (text "{}")) []
     = (Raise (KeyError "V"), [mkScan 1 [VNum 0; VNum 5] [VNum 7; VNum 8]])
  /\ run_parse (loads_as broken_session) (Ok (text "{}"))
     = (Ok [], [mkScan 1 [VNum 0; VNum 5] [VNum 7; VNum 8]])
  /\ parse_pessession_file (loads_as broken_session) (Ok (text "{}")) = Ok [].
Proof.
  split; [reflexivity|]. split; [reflexivity|].
  apply (exception_discards_assembled_scans
           (loads_as broken_session) (Ok (text "{}"))
           (KeyError "V") [mkScan 1 [VNum 0; VNum 5] [VNum 7; VNum 8]]).
  reflexivity.
Defined.

(** ['Measurements'] holding a number: [len] raises [TypeError]. *)
Example measurements_not_a_sequence (n : Z) (all_scans : list (ScanRecord Z)) :
  assemble (VDict [("Measurements", VNum n)]) all_scans
  = (Raise TypeError, all_scans).
Proof. reflexivity. Qed.

(** ** Locating the payload *)

Section BraceFacts.

Lemma count_brace_shift (c : Z) (x : char) :
  count_brace c x = c + count_brace 0 x.
Proof.
  unfold count_brace.
  destruct (N.eqb x open_brace); [lia|].
  destruct (N.eqb x close_brace); lia.
Qed.

Lemma brace_balance_cons (x : char) (s : list char) :
  brace_balance (x :: s) = count_brace 0 x + brace_balance s.
Proof.
  unfold brace_balance, count_brace, len; simpl filter.
  destruct (N.eqb x open_brace) eqn:Hopen, (N.eqb x close_brace) eqn:Hclose;
    simpl List.length; try lia.
  apply N.eqb_eq in Hopen, Hclose. subst x. discriminate.
Qed.

Lemma brace_balance_app (s t : list char) :
  brace_balance (s ++ t) = brace_balance s + brace_balance t.
Proof.
  induction s as [|x s IH]; simpl app.
  - unfold brace_balance at 2; simpl. lia.
  - rewrite !brace_balance_cons, IH. lia.
Qed.

Lemma match_braces_zero (rest : list char) (end_idx : Z) :
  match_braces rest 0 end_idx = (0, end_idx).
Proof. now destruct rest. Qed.

(** The loop stops after [n] characters: the counter is then
    [brace_count] plus the balance of what was read, it was positive at
    every earlier point, and it is zero unless the text has run out. *)
Lemma match_braces_spec (rest : list char) : forall brace_count end_idx,
  0 < brace_count ->
  exists n,
    (n <= List.length rest)%nat
    /\ match_braces rest brace_count end_idx
       = (brace_count + brace_balance (firstn n rest), end_idx + Z.of_nat n)
    /\ (forall m, (m < n)%nat -> 0 < brace_count + brace_balance (firstn m rest))
    /\ (brace_count + brace_balance (firstn n rest) = 0
        \/ (0 < brace_count + brace_balance (firstn n rest)
            /\ n = List.length rest)).
Proof.
  induction rest as [|x rest IH]; intros brace_count end_idx Hpos.
  - exists 0%nat. simpl firstn. change (brace_balance []) with 0.
    split; [simpl; lia|].
    split; [simpl; f_equal; lia|].
    split; [intros; lia|right; split; [lia|reflexivity]].
  - simpl match_braces.
    destruct (Z.gtb_spec brace_count 0) as [_|Hle]; [|lia].
    pose proof (count_brace_shift brace_count x) as Hshift.
    assert (Hstep : -1 <= count_brace 0 x <= 1).
    { unfold count_brace. destruct (N.eqb x open_brace); [lia|].
      destruct (N.eqb x close_brace); lia. }
    destruct (Z.eq_dec (count_brace brace_count x) 0) as [Hzero|Hnonzero].
    + exists 1%nat. rewrite Hzero, match_braces_zero.
      simpl firstn. rewrite brace_balance_cons. change (brace_balance []) with 0.
      split; [simpl; lia|].
      split; [f_equal; lia|].
      split; [|left; lia].
      intros m Hm. assert (m = 0%nat) as -> by lia.
      simpl firstn. change (brace_balance []) with 0. lia.
    + destruct (IH (count_brace brace_count x) (end_idx + 1)) as
        (n & Hn & Hrun & Hbefore & Hend); [lia|].
      exists (S n). simpl firstn. rewrite brace_balance_cons.
      split; [simpl; lia|].
      split; [rewrite Hrun; f_equal; lia|].
      split.
      * intros [|m] Hm; simpl firstn.
        -- change (brace_balance []) with 0. lia.
        -- rewrite brace_balance_cons.
           specialize (Hbefore m ltac:(lia)). lia.
      * destruct Hend as [Hend|[Hend ->]]; [left; lia|right].
        split; [lia|reflexivity].
Qed.

Lemma find_from_absent (c : char) (s : list char) : forall i,
  ~ In c s -> find_from c s i = -1.
Proof.
  induction s as [|x s IH]; intros i Hnot; simpl; [reflexivity|].
  destruct (N.eqb x c) eqn:Heq.
  - apply N.eqb_eq in Heq. exfalso; apply Hnot; now left.
  - apply IH. intros Hin; apply Hnot; now right.
Qed.

Lemma find_from_present (c : char) (before after : list char) : forall i,
  ~ In c before -> find_from c (before ++ c :: after) i = i + len before.
Proof.
  induction before as [|x before IH]; intros i Hnot; simpl.
  - rewrite N.eqb_refl. unfold len; simpl; lia.
  - destruct (N.eqb x c) eqn:Heq.
    + apply N.eqb_eq in Heq. exfalso; apply Hnot; now left.
    + rewrite IH by (intros Hin; apply Hnot; now right).
      unfold len; simpl List.length. lia.
Qed.

(** The text up to the first occurrence of a character. *)
Lemma first_occurrence (c : char) (s : list char) :
  In c s -> exists before after, s = before ++ c :: after /\ ~ In c before.
Proof.
  induction s as [|x s IH]; intros Hin; [contradiction|].
  destruct (N.eq_dec x c) as [->|Hne].
  - exists [], s. split; [reflexivity|auto].
  - destruct Hin as [Heq|Hin]; [contradiction|].
    destruct (IH Hin) as (before & after & -> & Hnot).
    exists (x :: before), after. split; [reflexivity|].
    intros [Heq|Hin']; [contradiction|auto].
Qed.

Lemma slice_from_after (before after : list char) (x : char) :
  slice_from (before ++ x :: after) (len before + 1) = after.
Proof.
  unfold slice_from, len.
  replace (Z.to_nat (Z.of_nat (List.length before) + 1))
    with (List.length (before ++ [x])) by (rewrite length_app; simpl; lia).
  replace (before ++ x :: after) with ((before ++ [x]) ++ after)
    by (now rewrite <- app_assoc).
  rewrite skipn_app, skipn_all, Nat.sub_diag. reflexivity.
Qed.

Lemma slice_payload (before after : list char) (x : char) (n : nat) :
  slice (before ++ x :: after) (len before) (len before + 1 + Z.of_nat n)
  = x :: firstn n after.
Proof.
  unfold slice, len.
  replace (Z.to_nat (Z.of_nat (List.length before) + 1 + Z.of_nat n)
           - Z.to_nat (Z.of_nat (List.length before)))%nat
    with (S n) by lia.
  rewrite Nat2Z.id, skipn_app, skipn_all, Nat.sub_diag. reflexivity.
Qed.

End BraceFacts.

Section SpanFacts.

Lemma brace_balance_open (s : list char) :
  brace_balance (open_brace :: s) = 1 + brace_balance s.
Proof. now rewrite brace_balance_cons. Qed.

Lemma json_span_no_brace (content : list char) :
  ~ In open_brace content -> json_span content = NoJsonFound.
Proof.
  intros Hnot. unfold json_span, find. now rewrite find_from_absent.
Qed.

(** From the first opening brace on, the search reads [n] characters with
    a positive counter and then either meets zero or runs out of text. *)
Lemma json_span_decomposed (before after : list char) :
  ~ In open_brace before ->
  exists n,
    (n <= List.length after)%nat
    /\ (forall m, (m < n)%nat -> 0 < 1 + brace_balance (firstn m after))
    /\ ((1 + brace_balance (firstn n after) = 0
         /\ json_span (before ++ open_brace :: after)
            = JsonContent (open_brace :: firstn n after))
        \/ (0 < 1 + brace_balance (firstn n after)
            /\ n = List.length after
            /\ json_span (before ++ open_brace :: after) = IncompleteJson)).
Proof.
  intros Hnot. unfold json_span, find.
  rewrite find_from_present by assumption. rewrite Z.add_0_l.
  assert (Hlen : 0 <= len before) by (unfold len; lia).
  destruct (Z.eqb_spec (len before) (-1)) as [Heq|_]; [lia|].
  rewrite slice_from_after.
  destruct (match_braces_spec after 1 (len before + 1)) as
    (n & Hn & Hrun & Hbefore & Hend); [lia|].
  exists n. rewrite Hrun. split; [assumption|]. split; [assumption|].
  destruct Hend as [Hzero|[Hpos Hall]].
  - left. split; [assumption|]. rewrite Hzero. simpl.
    now rewrite slice_payload.
  - right. split; [assumption|]. split; [assumption|].
    destruct (Z.gtb_spec (1 + brace_balance (firstn n after)) 0); [reflexivity|lia].
Qed.

(** The payload is the shortest text that starts at the first opening
    brace and whose braces balance. *)
Lemma json_span_content_iff (content json_content : list char) :
  json_span content = JsonContent json_content
  <-> exists before after,
        content = before ++ json_content ++ after
        /\ ~ In open_brace before
        /\ (exists rest, json_content = open_brace :: rest)
        /\ brace_balance json_content = 0
        /\ forall n, (0 < n < List.length json_content)%nat ->
                     brace_balance (firstn n json_content) <> 0.
Proof.
  split.
  - intros Hspan.
    destruct (in_dec N.eq_dec open_brace content) as [Hin|Hnot];
      [|rewrite json_span_no_brace in Hspan by assumption; discriminate].
    destruct (first_occurrence _ _ Hin) as (before & after & -> & Hnot).
    destruct (json_span_decomposed before after Hnot) as
      (n & Hn & Hbefore & [[Hzero Hrun]|(_ & _ & Hrun)]);
      rewrite Hrun in Hspan; [|discriminate].
    injection Hspan as <-.
    exists before, (skipn n after).
    split; [simpl; now rewrite firstn_skipn|].
    split; [assumption|]. split; [eauto|].
    split; [now rewrite brace_balance_open|].
    intros [|k] Hk; [lia|]. simpl in Hk.
    rewrite firstn_length_le in Hk by assumption.
    simpl firstn. rewrite brace_balance_open, firstn_firstn.
    replace (Nat.min k n) with k by lia.
    specialize (Hbefore k ltac:(lia)). lia.
  - intros (before & after & -> & Hnot & [rest ->] & Hbalance & Hprefix).
    rewrite brace_balance_open in Hbalance.
    replace (before ++ (open_brace :: rest) ++ after)
      with (before ++ open_brace :: (rest ++ after)) by reflexivity.
    destruct (json_span_decomposed before (rest ++ after) Hnot) as
      (n & Hn & Hbefore & Hend).
    assert (Hrest : firstn (List.length rest) (rest ++ after) = rest).
    { rewrite firstn_app, Nat.sub_diag, firstn_all. simpl. apply app_nil_r. }
    assert (Hshort : forall k, (k < List.length rest)%nat ->
                               1 + brace_balance (firstn k (rest ++ after)) <> 0).
    { intros k Hk. specialize (Hprefix (S k)). simpl in Hprefix.
      rewrite brace_balance_open in Hprefix.
      rewrite firstn_app. replace (k - List.length rest)%nat with 0%nat by lia.
      simpl firstn. rewrite app_nil_r. apply Hprefix. lia. }
    assert (Hexact : n = List.length rest).
    { destruct (Nat.lt_trichotomy n (List.length rest)) as [Hlt|[Heq|Hgt]].
      - exfalso. destruct Hend as [[Hzero _]|(_ & Hall & _)].
        + exact (Hshort n Hlt Hzero).
        + rewrite length_app in Hall. lia.
      - assumption.
      - exfalso. specialize (Hbefore (List.length rest) Hgt).
        rewrite Hrest in Hbefore. lia. }
    subst n. rewrite Hrest in Hend.
    destruct Hend as [[_ Hrun]|(Hpos & _)]; [assumption|lia].
Qed.

Lemma json_span_incomplete_iff (content : list char) :
  json_span content = IncompleteJson
  <-> exists before after,
        content = before ++ open_brace :: after
        /\ ~ In open_brace before
        /\ forall n, (0 < n <= List.length (open_brace :: after))%nat ->
                     brace_balance (firstn n (open_brace :: after)) <> 0.
Proof.
  split.
  - intros Hspan.
    destruct (in_dec N.eq_dec open_brace content) as [Hin|Hnot];
      [|rewrite json_span_no_brace in Hspan by assumption; discriminate].
    destruct (first_occurrence _ _ Hin) as (before & after & -> & Hnot).
    destruct (json_span_decomposed before after Hnot) as
      (n & Hn & Hbefore & [[_ Hrun]|(Hpos & -> & _)]);
      [rewrite Hrun in Hspan; discriminate|].
    exists before, after. split; [reflexivity|]. split; [assumption|].
    intros [|k] Hk; [lia|]. simpl in Hk.
    simpl firstn. rewrite brace_balance_open.
    destruct (Nat.eq_dec k (List.length after)) as [->|Hne]; [lia|].
    specialize (Hbefore k ltac:(lia)). lia.
  - intros (before & after & -> & Hnot & Hnever).
    destruct (json_span_decomposed before after Hnot) as
      (n & Hn & _ & [[Hzero _]|(_ & _ & Hrun)]); [|assumption].
    exfalso. apply (Hnever (S n)); [simpl; lia|].
    simpl firstn. now rewrite brace_balance_open.
Qed.

(** Searching the payload again finds the payload. *)
Lemma json_span_idempotent (content json_content : list char) :
  json_span content = JsonContent json_content ->
  json_span json_content = JsonContent json_content.
Proof.
  intros (_ & _ & _ & _ & Hrest & Hbalance & Hprefix)%json_span_content_iff.
  apply json_span_content_iff. exists [], [].
  split; [now rewrite app_nil_r|]. auto.
Qed.

End SpanFacts.

(** C4.  The text given to [json.loads] is the span that starts at the
    first opening brace of the content and ends with the character at
    which the nesting counter first returns to zero: the content is
    [before ++ json_content ++ after] with no opening brace in [before],
    [json_content] starts with an opening brace, its braces balance, and
    the braces of none of its shorter non-empty prefixes do.  The counter
    is the plain difference between the opening and the closing braces
    read, so a brace inside a quoted string counts: when the content is
    x, an opening brace, the quoted key a-closing-brace, then :1 and a
    closing brace, the span ends at the brace inside the quotes. *)
Theorem payload_is_first_balanced_span (content json_content : list char) :
  (json_span content = JsonContent json_content
   <-> exists before after,
         content = before ++ json_content ++ after
         /\ ~ In open_brace before
         /\ (exists rest, json_content = open_brace :: rest)
         /\ brace_balance json_content = 0
         /\ forall n, (0 < n < List.length json_content)%nat ->
                      brace_balance (firstn n json_content) <> 0)
  /\ json_span (text "x{" ++ quote :: text "a}" ++ quote :: text ":1}")
     = JsonContent (text "{" ++ quote :: text "a}").
Proof.
  split; [apply json_span_content_iff|reflexivity].
Qed.

(** C5.  The search ends at "Incomplete JSON content" exactly when the
    content has an opening brace and, from the first one on, the braces of
    no prefix balance, up to the end of the content; the file then yields
    the empty list. *)
Theorem incomplete_json_iff_never_balanced
  {number : Type} (json_loads : list char -> result (value number))
  (content : list char) :
  (json_span content = IncompleteJson
   <-> exists before after,
         content = before ++ open_brace :: after
         /\ ~ In open_brace before
         /\ forall n, (0 < n <= List.length (open_brace :: after))%nat ->
                      brace_balance (firstn n (open_brace :: after)) <> 0)
  /\ (json_span (strip_bom content) = IncompleteJson ->
      extract json_loads (strip_bom content) = IncompletePayload
      /\ parse_pessession_file json_loads (Ok content) = Ok []).
Proof.
  split; [apply json_span_incomplete_iff|].
  intros Hspan. split.
  - unfold extract. now rewrite Hspan.
  - unfold parse_pessession_file, run_parse, try_except, try_body, parse_body.
    unfold bind at 1, lift at 1. now rewrite Hspan.
Qed.

(** C6.  Extraction is idempotent: when the extraction of a text succeeds,
    with payload [json_content] parsed into [data], the extraction of
    [json_content] itself succeeds, with the same payload and the same
    document. *)
Theorem extraction_is_idempotent
  {number : Type} (json_loads : list char -> result (value number))
  (content json_content : list char) (data : value number) :
  extract json_loads content = ParsedSession json_content data ->
  extract json_loads json_content = ParsedSession json_content data.
Proof.
  unfold extract.
  destruct (json_span content) as [| |found] eqn:Hspan; try discriminate.
  destruct (json_loads found) as [parsed|e] eqn:Hloads; [|discriminate].
  intros Heq; injection Heq as -> ->.
  rewrite (json_span_idempotent _ _ Hspan). now rewrite Hloads.
Qed.

(** A payload between other text: extracting it again changes nothing. *)
Lemma extraction_is_idempotent_witness :
  extract (loads_as sample_session) (text "ab{c{d}e}f}")
  = ParsedSession (text "{c{d}e}") sample_session
  /\ extract (loads_as sample_session) (text "{c{d}e}")
     = ParsedSession (text "{c{d}e}") sample_session.
Proof.
  split; [reflexivity|].
  apply (extraction_is_idempotent (loads_as sample_session) (text "ab{c{d}e}f}")).
  reflexivity.
Defined.

(** ** Rendering *)

Section RenderFacts.

Context {number : Type}.
Variable str_of : value number -> string.

Lemma append_assoc (a b c : string) : ((a ++ b) ++ c = a ++ (b ++ c))%string.
Proof. induction a as [|x a IH]; simpl; [reflexivity|now rewrite IH]. Qed.

Lemma list_item_nth {A : Type} (l : list A) (k : nat) (x : A) :
  nth_error l k = Some x -> list_item l (Z.of_nat k) = Ok x.
Proof.
  intros Hnth. assert (Hk : (k < List.length l)%nat).
  { apply nth_error_Some. congruence. }
  unfold list_item, len.
  destruct (Z.ltb_spec (Z.of_nat k) 0) as [Hneg|_]; [lia|].
  destruct (Z.leb_spec 0 (Z.of_nat k)) as [_|Hneg]; [|lia].
  destruct (Z.ltb_spec (Z.of_nat k) (Z.of_nat (List.length l))) as [_|Hge]; [|lia].
  simpl. now rewrite Nat2Z.id, Hnth.
Qed.

Lemma cell_group_text (k : nat) (scan : ScanRecord number) :
  consistent scan ->
  cell_group str_of (Z.of_nat k) scan = Ok (cell_text str_of k scan).
Proof.
  unfold consistent, cell_group, cell_text, len. intros Hlen.
  destruct (Z.ltb_spec (Z.of_nat k) (Z.of_nat (List.length (potential scan))))
    as [Hin|Hout].
  - destruct (nth_error (potential scan) k) as [p|] eqn:Hp;
      [|apply nth_error_None in Hp; lia].
    destruct (nth_error (current scan) k) as [c|] eqn:Hc;
      [|apply nth_error_None in Hc; lia].
    now rewrite (list_item_nth _ _ _ Hp), (list_item_nth _ _ _ Hc).
  - destruct (nth_error (potential scan) k) as [p|] eqn:Hp; [|reflexivity].
    assert (k < List.length (potential scan))%nat; [|lia].
    apply nth_error_Some. congruence.
Qed.

Lemma data_line_text (k : nat) (scans : list (ScanRecord number)) :
  Forall consistent scans ->
  forall line,
    data_line str_of (Z.of_nat k) scans line
    = Ok (line ++ join (map (cell_text str_of k) scans))%string.
Proof.
  induction 1 as [|scan scans Hscan _ IH]; intros line; simpl.
  - f_equal. induction line as [|x line IHl]; simpl; [reflexivity|now rewrite <- IHl].
  - rewrite (cell_group_text k scan Hscan). simpl.
    now rewrite IH, append_assoc.
Qed.

Lemma write_rows_text (all_scans : list (ScanRecord number)) :
  Forall consistent all_scans ->
  forall (ks : list nat) output_file,
    write_rows str_of (map Z.of_nat ks) all_scans output_file
    = (output_file ++ map (row_text str_of all_scans) ks, Ok tt).
Proof.
  intros Hall ks; induction ks as [|k ks IH]; intros output_file; simpl.
  - now rewrite app_nil_r.
  - rewrite (data_line_text k all_scans Hall). simpl.
    rewrite IH, <- app_assoc. reflexivity.
Qed.

Lemma fold_left_max (rest : list Z) : forall x,
  (fold_left Z.max rest x = x \/ In (fold_left Z.max rest x) rest)
  /\ x <= fold_left Z.max rest x
  /\ forall y, In y rest -> y <= fold_left Z.max rest x.
Proof.
  induction rest as [|z rest IH]; intros x; simpl.
  - split; [now left|]. split; [lia|contradiction].
  - destruct (IH (Z.max x z)) as (Hin & Hle & Hall).
    split; [|split].
    + destruct Hin as [Heq|Hin]; [|auto].
      destruct (Z.max_spec x z) as [[_ Hmax]|[_ Hmax]]; rewrite Hmax in *;
        [right; left; now symmetry|now left].
    + lia.
    + intros y [<-|Hy]; [lia|auto].
Qed.

(** [max] of a non-empty sequence is its greatest element. *)
Lemma py_max_spec (l : list Z) :
  l <> [] ->
  exists m, py_max l = Ok m /\ In m l /\ forall y, In y l -> y <= m.
Proof.
  destruct l as [|x rest]; [congruence|]. intros _.
  destruct (fold_left_max rest x) as (Hin & Hle & Hall).
  exists (fold_left Z.max rest x). split; [reflexivity|]. split.
  - destruct Hin as [->|Hin]; [now left|now right].
  - intros y [<-|Hy]; auto.
Qed.

Lemma nth_error_seq_map {B : Type} (g : nat -> B) (n i : nat) :
  (i < n)%nat -> nth_error (map g (seq 0 n)) i = Some (g i).
Proof.
  intros Hi. rewrite nth_error_map.
  rewrite (nth_error_nth' _ 0%nat) by (rewrite length_seq; lia).
  now rewrite seq_nth by lia.
Qed.

End RenderFacts.

(** C7.  For a non-empty sequence of scan records (each with as many
    current values as potential values), the table has, after its two
    header lines, as many data rows as the longest potential series has
    values; row [i] is made of one group per record, in order: the
    record's potential and current at [i], each followed by a tab, and
    one more tab, or three tabs when the record has fewer than [i + 1]
    values. *)
Theorem data_rows_align_scans
  {number : Type} (str_of : value number -> string)
  (all_scans : list (ScanRecord number)) :
  all_scans <> [] ->
  Forall consistent all_scans ->
  exists max_points rows,
    py_max (map (fun scan => len (potential scan)) all_scans) = Ok max_points
    /\ (exists scan, In scan all_scans /\ len (potential scan) = max_points)
    /\ (forall scan, In scan all_scans -> len (potential scan) <= max_points)
    /\ write_table str_of all_scans
       = ([(scan_header (len all_scans) ++ newline)%string;
           (column_header (len all_scans) ++ newline)%string] ++ rows, Ok tt)
    /\ len rows = max_points
    /\ forall i, (i < List.length rows)%nat ->
                 nth_error rows i
                 = Some (join (map (cell_text str_of i) all_scans) ++ newline)%string.
Proof.
  intros Hnonempty Hall.
  destruct (py_max_spec (map (fun scan => len (potential scan)) all_scans))
    as (max_points & Hmax & Hin & Hle).
  { destruct all_scans; [congruence|discriminate]. }
  apply in_map_iff in Hin as (longest & Hlongest & Hin).
  assert (Hpos : 0 <= max_points) by (subst max_points; unfold len; lia).
  exists max_points,
    (map (row_text str_of all_scans) (seq 0 (Z.to_nat max_points))).
  split; [assumption|]. split; [eauto|]. split.
  { intros scan Hscan. apply Hle, in_map_iff. eauto. }
  split.
  { unfold write_table. rewrite Hmax. unfold range.
    now rewrite (write_rows_text str_of all_scans Hall). }
  split.
  { unfold len. rewrite length_map, length_seq. lia. }
  intros i Hi. rewrite length_map, length_seq in Hi.
  now rewrite nth_error_seq_map.
Qed.

(** Records of lengths 3 and 5: five data rows, the first three with the
    values of both records, the last two with three tabs for the first
    record and the values of the second. *)
Lemma data_rows_align_scans_witness :
  write_table str_of_sample sample_scans
  = ([("Scan 1" ++ tab ++ tab ++ tab ++ tab
       ++ "Scan 2" ++ tab ++ tab ++ tab ++ tab ++ newline)%string;
      (column_group ++ column_group ++ newline)%string;
      ("10" ++ tab ++ "20" ++ tab ++ tab ++ "30" ++ tab ++ "40" ++ tab ++ tab
       ++ newline)%string;
      ("11" ++ tab ++ "21" ++ tab ++ tab ++ "31" ++ tab ++ "41" ++ tab ++ tab
       ++ newline)%string;
      ("12" ++ tab ++ "22" ++ tab ++ tab ++ "32" ++ tab ++ "42" ++ tab ++ tab
       ++ newline)%string;
      (tab ++ tab ++ tab ++ "33" ++ tab ++ "43" ++ tab ++ tab ++ newline)%string;
      (tab ++ tab ++ tab ++ "34" ++ tab ++ "44" ++ tab ++ tab ++ newline)%string],
     Ok tt)
  /\ exists max_points rows,
       py_max (map (fun scan => len (potential scan)) sample_scans) = Ok max_points
       /\ (exists scan, In scan sample_scans /\ len (potential scan) = max_points)
       /\ (forall scan, In scan sample_scans -> len (potential scan) <= max_points)
       /\ write_table str_of_sample sample_scans
          = ([(scan_header (len sample_scans) ++ newline)%string;
              (column_header (len sample_scans) ++ newline)%string] ++ rows, Ok tt)
       /\ len rows = max_points
       /\ forall i, (i < List.length rows)%nat ->
                    nth_error rows i
                    = Some (join (map (cell_text str_of_sample i) sample_scans)
                            ++ newline)%string.
Proof.
  split; [reflexivity|].
  apply (data_rows_align_scans str_of_sample sample_scans).
  - discriminate.
  - repeat constructor.
Defined.

(** ** One file of the folder *)

Section ConvertFacts.

Context {number : Type}.
Variable json_loads : list char -> result (value number).
Variable str_of : value number -> string.

Lemma append_nil_r (s : string) : (s ++ EmptyString)%string = s.
Proof. induction s as [|x s IH]; simpl; [reflexivity|now rewrite IH]. Qed.

Lemma fold_left_groups {A : Type} (group : string) (l : list A) : forall header_line,
  fold_left (fun header_line _ => (header_line ++ group)%string) l header_line
  = (header_line ++ join (repeat group (List.length l)))%string.
Proof.
  induction l as [|x l IH]; intros header_line; simpl.
  - now rewrite append_nil_r.
  - now rewrite IH, append_assoc.
Qed.

(** The second header line has one column group per scan. *)
Lemma column_header_groups (n : nat) :
  column_header (Z.of_nat n) = join (repeat column_group n).
Proof.
  unfold column_header, range.
  rewrite fold_left_groups, length_map, length_seq, Nat2Z.id. reflexivity.
Qed.

(** Every record the walk appends is consistent. *)
Lemma scans_of_document_consistent (data : value number) :
  Forall consistent (fst (scans_of_document data)).
Proof.
  apply Forall_forall; intros r Hr. unfold scans_of_document in Hr.
  destruct (measurements_of data) as [measurements|e]; [|contradiction].
  apply gather_in in Hr as (item & _ & Hr).
  unfold scans_of_measurement in Hr.
  destruct (curves_of (snd item)) as [curves|e]; [|contradiction].
  apply gather_in in Hr as (curve_item & _ & Hr).
  unfold scans_of_curve in Hr.
  destruct (axis_values "XAxisDataArray" (snd curve_item)) as [xs|e];
    [|contradiction].
  destruct (axis_values "YAxisDataArray" (snd curve_item)) as [ys|e];
    [|contradiction].
  destruct (aligned xs ys) eqn:Hal; [|contradiction].
  destruct Hr as [<-|[]]. now apply aligned_spec in Hal.
Qed.

Lemma parse_consistent (file : result (list char)) all_scans :
  parse_pessession_file json_loads file = Ok all_scans ->
  Forall consistent all_scans.
Proof.
  unfold parse_pessession_file, run_parse, try_except, try_body, parse_body.
  unfold bind at 1, lift at 1.
  destruct file as [content|e]; simpl; [|empty_result].
  destruct (json_span (strip_bom content)) as [| |json_content]; simpl;
    try empty_result.
  unfold bind at 1, lift at 1.
  destruct (json_loads json_content) as [data|e]; simpl; [|empty_result].
  unfold bind at 1. rewrite assemble_run.
  destruct (snd (scans_of_document data)) as [[]|e]; simpl; [|empty_result].
  intros Heq; injection Heq as <-. apply scans_of_document_consistent.
Qed.

Lemma write_table_run (all_scans : list (ScanRecord number)) :
  all_scans <> [] ->
  Forall consistent all_scans ->
  exists max_points,
    py_max (map (fun scan => len (potential scan)) all_scans) = Ok max_points
    /\ write_table str_of all_scans
       = ((scan_header (len all_scans) ++ newline)%string
          :: (column_header (len all_scans) ++ newline)%string
          :: map (row_text str_of all_scans) (seq 0 (Z.to_nat max_points)),
          Ok tt).
Proof.
  intros Hnonempty Hall.
  destruct (py_max_spec (map (fun scan => len (potential scan)) all_scans))
    as (max_points & Hmax & _).
  { destruct all_scans; [congruence|discriminate]. }
  exists max_points. split; [assumption|].
  unfold write_table. rewrite Hmax. unfold range.
  now rewrite (write_rows_text str_of all_scans Hall).
Qed.

End ConvertFacts.

(** C10.  [max] is never applied to an empty sequence.  A file whose parse
    yields no scan is skipped, and nothing is written for it.  For every
    other file the writing is reached with a non-empty [all_scans]: [max]
    returns, every row is written, and the two header lines of the output
    hold one column group per scan, of which there is at least one.  The
    [except] clause of the conversion is never reached from the parse. *)
Theorem max_points_needs_a_scan
  {number : Type} (json_loads : list char -> result (value number))
  (str_of : value number -> string) (file : result (list char)) :
  (parse_pessession_file json_loads file = Ok [] ->
   convert_file json_loads str_of file = Skipped)
  /\ match convert_file json_loads str_of file with
     | Skipped => parse_pessession_file json_loads file = Ok []
     | ErrorProcessing _ => False
     | Written output_file status =>
         exists all_scans max_points,
           parse_pessession_file json_loads file = Ok all_scans
           /\ all_scans <> []
           /\ (1 <= List.length all_scans)%nat
           /\ py_max (map (fun scan => len (potential scan)) all_scans)
              = Ok max_points
           /\ status = Ok tt
           /\ output_file
              = (scan_header (len all_scans) ++ newline)%string
                :: (column_header (len all_scans) ++ newline)%string
                :: map (row_text str_of all_scans) (seq 0 (Z.to_nat max_points))
           /\ column_header (len all_scans)
              = join (repeat column_group (List.length all_scans))
     end.
Proof.
  unfold convert_file.
  destruct (parse_returns_a_list json_loads file) as [all_scans Hparse].
  rewrite Hparse.
  split; [intros Heq; injection Heq as ->; reflexivity|].
  destruct all_scans as [|scan rest]; [reflexivity|].
  destruct (write_table_run str_of (scan :: rest)) as (max_points & Hmax & Hrun);
    [discriminate|exact (parse_consistent json_loads file _ Hparse)|].
  rewrite Hrun.
  exists (scan :: rest), max_points.
  split; [reflexivity|]. split; [discriminate|]. split; [simpl; lia|].
  split; [assumption|]. split; [reflexivity|]. split; [reflexivity|].
  apply column_header_groups.
Qed.

(** * Further properties *)

(** ** The text around the payload *)

Section WrapperFacts.

Lemma json_span_no_json_iff (content : list char) :
  json_span content = NoJsonFound <-> ~ In open_brace content.
Proof.
  split; [|apply json_span_no_brace].
  intros Hspan Hin.
  destruct (first_occurrence _ _ Hin) as (before & after & -> & Hnot).
  destruct (json_span_decomposed before after Hnot) as
    (n & _ & _ & [[_ Hrun]|(_ & _ & Hrun)]);
    rewrite Hrun in Hspan; discriminate.
Qed.

Lemma not_in_app (c : char) (s t : list char) :
  ~ In c s -> ~ In c t -> ~ In c (s ++ t).
Proof. intros Hs Ht [H|H]%in_app_or; auto. Qed.

(** The search does not see what stands before the first opening brace. *)
Lemma json_span_prefix (before content : list char) :
  ~ In open_brace before -> json_span (before ++ content) = json_span content.
Proof.
  intros Hnot. destruct (json_span content) as [| |json_content] eqn:Hspan.
  - apply json_span_no_json_iff, not_in_app; [assumption|].
    now apply json_span_no_json_iff.
  - apply json_span_incomplete_iff in Hspan as (b & a & -> & Hb & Hnever).
    apply json_span_incomplete_iff. exists (before ++ b), a.
    split; [now rewrite app_assoc|]. split; [now apply not_in_app|assumption].
  - apply json_span_content_iff in Hspan as (b & a & -> & Hb & Hrest).
    apply json_span_content_iff. exists (before ++ b), a.
    split; [now rewrite app_assoc|]. split; [now apply not_in_app|assumption].
Qed.

(** Lines 15-16 do not change what the search finds. *)
Lemma json_span_strip_bom (content : list char) :
  json_span (strip_bom content) = json_span content.
Proof.
  destruct content as [|c rest]; [reflexivity|]. simpl.
  destruct (N.eqb_spec c byte_order_mark) as [->|_]; [|reflexivity].
  symmetry. apply (json_span_prefix [byte_order_mark] rest).
  intros [Heq|[]]. discriminate.
Qed.

Lemma json_span_suffix (content json_content after : list char) :
  json_span content = JsonContent json_content ->
  json_span (content ++ after) = JsonContent json_content.
Proof.
  intros (b & a & -> & Hb & Hrest)%json_span_content_iff.
  apply json_span_content_iff. exists b, (a ++ after).
  split; [now rewrite <- !app_assoc|]. split; assumption.
Qed.

End WrapperFacts.

Section SameSpan.

Context {number : Type}.
Variable json_loads : list char -> result (value number).

(** The result of a file depends on its text only through the payload
    found in it. *)
Lemma run_parse_by_span (content content' : list char) :
  json_span content = json_span content' ->
  run_parse json_loads (Ok content) = run_parse json_loads (Ok content').
Proof.
  intros Hsame. unfold run_parse, try_except.
  rewrite !try_body_extract. unfold extract.
  now rewrite !json_span_strip_bom, Hsame.
Qed.

End SameSpan.

(** X1.  The search ends at "No JSON content found" exactly when the
    content has no opening brace at all; the file then yields the empty
    list, whatever else it holds. *)
Theorem no_json_iff_no_opening_brace
  {number : Type} (json_loads : list char -> result (value number))
  (content : list char) :
  (json_span content = NoJsonFound <-> ~ In open_brace content)
  /\ (~ In open_brace content ->
      extract json_loads content = NoPayload
      /\ parse_pessession_file json_loads (Ok content) = Ok []).
Proof.
  split; [apply json_span_no_json_iff|].
  intros Hspan%json_span_no_json_iff. split.
  - unfold extract. now rewrite Hspan.
  - unfold parse_pessession_file, run_parse, try_except, try_body, parse_body.
    unfold bind at 1, lift at 1. now rewrite json_span_strip_bom, Hspan.
Qed.

(** X2.  Text before the first opening brace is ignored: putting any text
    without an opening brace in front of a content changes neither what
    the search finds nor what the file yields.  A leading byte order mark
    is such a text. *)
Theorem text_before_first_brace_is_ignored
  {number : Type} (json_loads : list char -> result (value number))
  (before content : list char) :
  ~ In open_brace before ->
  json_span (before ++ content) = json_span content
  /\ parse_pessession_file json_loads (Ok (before ++ content))
     = parse_pessession_file json_loads (Ok content).
Proof.
  intros Hnot. split; [now apply json_span_prefix|].
  unfold parse_pessession_file. f_equal.
  apply run_parse_by_span. now apply json_span_prefix.
Qed.

(** A byte order mark and a title in front of a payload. *)
Lemma text_before_first_brace_witness :
  ~ In open_brace (byte_order_mark :: text "session: ")
  /\ json_span ((byte_order_mark :: text "session: ") ++ text "{a{b}}c")
     = json_span (text "{a{b}}c")
  /\ parse_pessession_file (loads_as sample_session)
       (Ok ((byte_order_mark :: text "session: ") ++ text "{a{b}}c"))
     = parse_pessession_file (loads_as sample_session) (Ok (text "{a{b}}c")).
Proof.
  assert (Hnot : ~ In open_brace (byte_order_mark :: text "session: ")).
  { simpl. intros H.
    repeat (destruct H as [H|H]; [discriminate|]). exact H. }
  split; [exact Hnot|].
  exact (text_before_first_brace_is_ignored
           (loads_as sample_session) _ (text "{a{b}}c") Hnot).
Defined.

(** X3.  Text after the payload is ignored: once a content has a payload,
    appending any text to it (braces included) leaves the payload and the
    result of the file as they are. *)
Theorem text_after_payload_is_ignored
  {number : Type} (json_loads : list char -> result (value number))
  (content json_content after : list char) :
  json_span content = JsonContent json_content ->
  json_span (content ++ after) = JsonContent json_content
  /\ parse_pessession_file json_loads (Ok (content ++ after))
     = parse_pessession_file json_loads (Ok content).
Proof.
  intros Hspan.
  pose proof (json_span_suffix _ _ after Hspan) as Hmore.
  split; [assumption|].
  unfold parse_pessession_file. f_equal.
  apply run_parse_by_span. now rewrite Hmore, Hspan.
Qed.

(** A second object after the payload is not looked at. *)
Lemma text_after_payload_witness :
  json_span (text "x{a}") = JsonContent (text "{a}")
  /\ json_span (text "x{a}" ++ text "}{{") = JsonContent (text "{a}")
  /\ parse_pessession_file (loads_as sample_session)
       (Ok (text "x{a}" ++ text "}{{"))
     = parse_pessession_file (loads_as sample_session) (Ok (text "x{a}")).
Proof.
  split; [reflexivity|].
  apply (text_after_payload_is_ignored
           (loads_as sample_session) (text "x{a}") (text "{a}")).
  reflexivity.
Defined.

Section PayloadShape.

Lemma count_brace_closing (x : char) :
  count_brace 0 x = -1 -> x = close_brace.
Proof.
  unfold count_brace.
  destruct (N.eqb x open_brace); [discriminate|].
  destruct (N.eqb_spec x close_brace); [trivial|discriminate].
Qed.

Lemma firstn_succ_last {A : Type} (l : list A) (m : nat) :
  (m < List.length l)%nat ->
  exists x, firstn (S m) l = firstn m l ++ [x].
Proof.
  revert m; induction l as [|y l IH]; intros m Hm; simpl in Hm; [lia|].
  destruct m as [|m].
  - exists y. reflexivity.
  - destruct (IH m ltac:(lia)) as [x Hx]. exists x.
    change (firstn (S (S m)) (y :: l)) with (y :: firstn (S m) l).
    now rewrite Hx.
Qed.

End PayloadShape.

(** X4.  A payload always has the form of a JSON object text: it starts
    with an opening brace and ends with a closing brace, so it has at
    least two characters. *)
Theorem payload_is_braced (content json_content : list char) :
  json_span content = JsonContent json_content ->
  exists inner, json_content = open_brace :: inner ++ [close_brace].
Proof.
  intros Hspan.
  destruct (in_dec N.eq_dec open_brace content) as [Hin|Hnot];
    [|rewrite json_span_no_brace in Hspan by assumption; discriminate].
  destruct (first_occurrence _ _ Hin) as (before & after & -> & Hnot).
  destruct (json_span_decomposed before after Hnot) as
    (n & Hn & Hbefore & [[Hzero Hrun]|(_ & _ & Hrun)]);
    rewrite Hrun in Hspan; [|discriminate].
  injection Hspan as <-.
  destruct n as [|m].
  - simpl in Hzero. change (brace_balance []) with 0 in Hzero. lia.
  - destruct (firstn_succ_last after m ltac:(lia)) as [x Hx].
    exists (firstn m after). rewrite Hx. do 2 f_equal.
    rewrite Hx, brace_balance_app, brace_balance_cons in Hzero.
    change (brace_balance []) with 0 in Hzero.
    specialize (Hbefore m ltac:(lia)).
    assert (Hstep : -1 <= count_brace 0 x).
    { unfold count_brace. destruct (N.eqb x open_brace); [lia|].
      destruct (N.eqb x close_brace); lia. }
    f_equal. apply count_brace_closing. lia.
Qed.

(** The payload of a text with nested braces. *)
Lemma payload_is_braced_witness :
  json_span (text "ab{c{d}e}f}") = JsonContent (text "{c{d}e}")
  /\ exists inner, text "{c{d}e}" = open_brace :: inner ++ [close_brace].
Proof.
  split; [reflexivity|].
  apply (payload_is_braced (text "ab{c{d}e}f}")). reflexivity.
Defined.

(** ** What a file can yield *)

Section ResultFacts.

Context {number : Type}.
Variable json_loads : list char -> result (value number).

(** The two ways [parse_pessession_file] returns: the empty list, or the
    list the walk has filled without raising. *)
Lemma parse_cases (file : result (list char)) all_scans :
  parse_pessession_file json_loads file = Ok all_scans ->
  all_scans = []
  \/ exists content json_content data,
       file = Ok content
       /\ json_span (strip_bom content) = JsonContent json_content
       /\ json_loads json_content = Ok data
       /\ assemble data [] = (Ok tt, all_scans).
Proof.
  unfold parse_pessession_file, run_parse, try_except.
  destruct file as [content|e];
    [|intros Heq; injection Heq as <-; now left].
  rewrite try_body_extract. unfold extract.
  destruct (json_span (strip_bom content)) as [| |json_content] eqn:Hspan;
    try (intros Heq; injection Heq as <-; now left).
  destruct (json_loads json_content) as [data|e] eqn:Hloads;
    [|intros Heq; injection Heq as <-; now left].
  destruct (assemble data []) as [[[]|e] st] eqn:Hwalk;
    intros Heq; injection Heq as <-; [right|now left].
  exists content, json_content, data. auto.
Qed.

Lemma scans_of_document_well_formed (data : value number) :
  Forall (fun r => 1 <= scan_number r
                   /\ 0 < len (potential r)
                   /\ len (potential r) = len (current r))
         (fst (scans_of_document data)).
Proof.
  apply Forall_forall; intros r Hr. unfold scans_of_document in Hr.
  destruct (measurements_of data) as [measurements|e]; [|contradiction].
  apply gather_in in Hr as (item & _ & Hr).
  unfold scans_of_measurement in Hr.
  destruct (curves_of (snd item)) as [curves|e]; [|contradiction].
  apply gather_in in Hr as ([i curve] & Hin & Hr).
  apply enumerate_from_in in Hin as (n & _ & ->).
  unfold scans_of_curve in Hr; cbn [fst snd] in Hr.
  destruct (axis_values "XAxisDataArray" curve) as [xs|e]; [|contradiction].
  destruct (axis_values "YAxisDataArray" curve) as [ys|e]; [|contradiction].
  destruct (aligned xs ys) eqn:Hal; [|contradiction].
  destruct Hr as [<-|[]]. apply aligned_spec in Hal. simpl. lia.
Qed.

End ResultFacts.

(** X5.  A file yields records only when everything went well: if
    [parse_pessession_file] returns a non-empty list, then the file was
    read, a payload was found in it, [json.loads] parsed the payload, and
    the walk over the document ended without an exception, leaving exactly
    that list, which has at most one record per curve of the document.  In
    every other case the result is the empty list. *)
Theorem records_need_a_complete_parse
  {number : Type} (json_loads : list char -> result (value number))
  (file : result (list char)) (all_scans : list (ScanRecord number)) :
  parse_pessession_file json_loads file = Ok all_scans ->
  all_scans <> [] ->
  exists content json_content data,
    file = Ok content
    /\ json_span (strip_bom content) = JsonContent json_content
    /\ json_loads json_content = Ok data
    /\ assemble data [] = (Ok tt, all_scans)
    /\ (List.length all_scans <= curve_count data)%nat.
Proof.
  intros Hparse Hnonempty.
  destruct (parse_cases json_loads file all_scans Hparse) as
    [->|(content & json_content & data & Hfile & Hspan & Hloads & Hwalk)];
    [congruence|].
  exists content, json_content, data. repeat (split; [assumption|]).
  rewrite assemble_run in Hwalk. injection Hwalk as _ <-.
  apply scans_of_document_short.
Qed.

(** The sample document, found between other text. *)
Lemma records_need_a_complete_parse_witness :
  parse_pessession_file (loads_as sample_session) (Ok (text "ab{c{d}e}f}"))
  = Ok [mkScan 2 [VNum 0; VNum 5] [VNum 7; VNum 8]; mkScan 1 [VNum 3] [VNum 4]]
  /\ exists content json_content data,
       Ok (text "ab{c{d}e}f}") = Ok content
       /\ json_span (strip_bom content) = JsonContent json_content
       /\ loads_as sample_session json_content = Ok data
       /\ assemble data []
          = (Ok tt, [mkScan 2 [VNum 0; VNum 5] [VNum 7; VNum 8];
                     mkScan 1 [VNum 3] [VNum 4]])
       /\ (List.length [mkScan 2 [VNum 0; VNum 5] [VNum 7; VNum 8];
                        mkScan 1 [VNum 3] [VNum 4]]
           <= curve_count data)%nat.
Proof.
  split; [reflexivity|].
  apply (records_need_a_complete_parse
           (loads_as sample_session) (Ok (text "ab{c{d}e}f}"))).
  - reflexivity.
  - discriminate.
Defined.

(** X6.  Every record a file yields is well formed: its scan number is at
    least 1, its potential series is not empty, and its current series
    has the same length. *)
Theorem parsed_records_are_well_formed
  {number : Type} (json_loads : list char -> result (value number))
  (file : result (list char)) (all_scans : list (ScanRecord number)) :
  parse_pessession_file json_loads file = Ok all_scans ->
  Forall (fun r => 1 <= scan_number r
                   /\ 0 < len (potential r)
                   /\ len (potential r) = len (current r))
         all_scans.
Proof.
  intros Hparse.
  destruct (parse_cases json_loads file all_scans Hparse) as
    [->|(_ & _ & data & _ & _ & _ & Hwalk)]; [constructor|].
  rewrite assemble_run in Hwalk. injection Hwalk as _ <-.
  apply scans_of_document_well_formed.
Qed.

Lemma parsed_records_are_well_formed_witness :
  parse_pessession_file (loads_as sample_session) (Ok (text "{}"))
  = Ok [mkScan 2 [VNum 0; VNum 5] [VNum 7; VNum 8]; mkScan 1 [VNum 3] [VNum 4]]
  /\ Forall (fun r => 1 <= scan_number r
                      /\ 0 < len (potential r)
                      /\ len (potential r) = len (current r))
            [mkScan 2 [VNum 0; VNum 5] [VNum 7; VNum 8];
             mkScan 1 [VNum 3] [VNum 4]].
Proof.
  split; [reflexivity|].
  apply (parsed_records_are_well_formed
           (loads_as sample_session) (Ok (text "{}"))).
  reflexivity.
Defined.

(** ** Sessions of the expected form *)

Section ExpectedFacts.

Context {number : Type}.

Lemma keeps_aligned (xs ys : list (value number)) :
  keeps (xs, ys) = aligned xs ys.
Proof.
  unfold keeps, aligned, len; cbn [fst snd].
  destruct xs as [|x xs], ys as [|y ys]; try reflexivity.
  change (Z.of_nat (List.length (x :: xs)) >? 0) with true.
  change (Z.of_nat (List.length (y :: ys)) >? 0) with true.
  cbn [andb].
  destruct (Nat.eqb_spec (List.length (x :: xs)) (List.length (y :: ys)))
    as [Heq|Hne];
    destruct (Z.eqb_spec (Z.of_nat (List.length (x :: xs)))
                         (Z.of_nat (List.length (y :: ys)))) as [Heq'|Hne'];
    try reflexivity; lia.
Qed.

Lemma gather_curves_expected (curves : list (@series_pair number)) : forall k,
  gather scans_of_curve
    (enumerate_from k (map (fun xy => curve_of (fst xy) (snd xy)) curves))
  = (flat_map (fun item : Z * series_pair =>
                 if keeps (snd item)
                 then [mkScan (fst item + 1) (fst (snd item)) (snd (snd item))]
                 else [])
              (enumerate_from k curves),
     Ok tt).
Proof.
  induction curves as [|[xs ys] curves IH]; intros k; [reflexivity|].
  cbn [map enumerate_from gather flat_map fst snd].
  rewrite scans_of_curve_of, IH, keeps_aligned. reflexivity.
Qed.

Lemma gather_measurements_expected (measurements : list (list (@series_pair number))) :
  forall k,
    gather scans_of_measurement
      (enumerate_from k
         (map (fun curves =>
                 measurement_of (map (fun xy => curve_of (fst xy) (snd xy)) curves))
              measurements))
    = (session_scans measurements, Ok tt).
Proof.
  induction measurements as [|curves measurements IH]; intros k; [reflexivity|].
  cbn [map enumerate_from gather].
  rewrite scans_of_measurement_of. unfold enumerate.
  rewrite gather_curves_expected, IH. reflexivity.
Qed.

Lemma assemble_session_document (measurements : list (list (@series_pair number)))
  all_scans :
  assemble (session_document measurements) all_scans
  = (Ok tt, all_scans ++ session_scans measurements).
Proof.
  rewrite assemble_run. unfold session_document, scans_of_document.
  rewrite measurements_of_session_of. unfold enumerate.
  now rewrite gather_measurements_expected.
Qed.

End ExpectedFacts.

(** X7.  On a session of the expected form (every measurement has its
    curves, every curve both axes, every data point its value) the file
    yields exactly the records of [session_scans]: for each measurement in
    order, one record for each curve whose two series are non-empty and
    equally long, in order, carrying the two series and the place of the
    curve in its measurement counted from 1. *)
Theorem expected_session_yields_session_scans
  {number : Type} (json_loads : list char -> result (value number))
  (content json_content : list char)
  (measurements : list (list (@series_pair number))) :
  json_span (strip_bom content) = JsonContent json_content ->
  json_loads json_content = Ok (session_document measurements) ->
  assemble (session_document measurements) [] = (Ok tt, session_scans measurements)
  /\ parse_pessession_file json_loads (Ok content)
     = Ok (session_scans measurements).
Proof.
  intros Hspan Hloads.
  pose proof (assemble_session_document measurements []) as Hwalk.
  cbn [app] in Hwalk. split; [exact Hwalk|].
  unfold parse_pessession_file, run_parse, try_except.
  rewrite try_body_extract. unfold extract.
  now rewrite Hspan, Hloads, Hwalk.
Qed.

(** The sample document is the session of these series. *)
Lemma expected_session_witness :
  session_document
    [[([VNum 0; VNum 1; VNum 2], [VNum 10; VNum 20]);
      ([VNum 0; VNum 5], [VNum 7; VNum 8])];
     [([VNum 3], [VNum 4])]]
  = sample_session
  /\ parse_pessession_file (loads_as sample_session) (Ok (text "x{}"))
     = Ok [mkScan 2 [VNum 0; VNum 5] [VNum 7; VNum 8]; mkScan 1 [VNum 3] [VNum 4]].
Proof.
  split; [reflexivity|].
  apply (expected_session_yields_session_scans
           (loads_as sample_session) (text "x{}") (text "{}")
           [[([VNum 0; VNum 1; VNum 2], [VNum 10; VNum 20]);
             ([VNum 0; VNum 5], [VNum 7; VNum 8])];
            [([VNum 3], [VNum 4])]]);
    reflexivity.
Defined.

(** ** Measurements side by side *)

Section ComposeFacts.

Context {number : Type}.

Lemma gather_app {A : Type} (f : A -> @contribution number) (l1 l2 : list A) :
  gather f (l1 ++ l2)
  = match gather f l1 with
    | (added, Ok _) => (added ++ fst (gather f l2), snd (gather f l2))
    | (added, Raise e) => (added, Raise e)
    end.
Proof.
  induction l1 as [|x l1 IH]; simpl.
  - now destruct (gather f l2).
  - destruct (f x) as [added [[]|e]]; [|reflexivity].
    rewrite IH. destruct (gather f l1) as [more [[]|e]]; [|reflexivity].
    now rewrite app_assoc.
Qed.

Lemma enumerate_from_app {A : Type} (l1 l2 : list A) : forall k,
  enumerate_from k (l1 ++ l2)
  = enumerate_from k l1 ++ enumerate_from (k + len l1) l2.
Proof.
  induction l1 as [|x l1 IH]; intros k; simpl.
  - unfold len; simpl. now rewrite Z.add_0_r.
  - rewrite IH. do 3 f_equal. unfold len; simpl List.length. lia.
Qed.

(** What a measurement contributes does not depend on its index. *)
Lemma gather_measurements_shift (measurements : list (value number)) : forall k k',
  gather scans_of_measurement (enumerate_from k measurements)
  = gather scans_of_measurement (enumerate_from k' measurements).
Proof.
  induction measurements as [|m measurements IH]; intros k k'; [reflexivity|].
  cbn [enumerate_from gather].
  change (scans_of_measurement (k, m)) with (scans_of_measurement (k', m)).
  now rewrite (IH (k + 1) (k' + 1)).
Qed.

End ComposeFacts.

(** X8.  The measurements of a session are handled independently and in
    turn: when the walk over the measurements [first] ends without an
    exception, the walk over [first ++ second] gives the records of
    [first] followed by the records of [second], and ends as the walk over
    [second] alone ends.  Neither the measurements before a measurement
    nor its index change the records it contributes. *)
Theorem walk_composes_over_measurements
  {number : Type} (first second : list (value number))
  (out : list (ScanRecord number)) :
  assemble (session_of first) [] = (Ok tt, out) ->
  assemble (session_of (first ++ second)) []
  = (fst (assemble (session_of second) []),
     out ++ snd (assemble (session_of second) [])).
Proof.
  rewrite !assemble_run. unfold scans_of_document.
  rewrite !measurements_of_session_of. unfold enumerate.
  rewrite enumerate_from_app, gather_app.
  rewrite (gather_measurements_shift second (0 + len first) 0).
  intros Hfirst. injection Hfirst as Hstatus <-.
  destruct (gather scans_of_measurement (enumerate_from 0 first))
    as [added [[]|e]]; [|discriminate].
  reflexivity.
Qed.

(** The two measurements of the sample document, one after the other. *)
Lemma walk_composes_witness :
  assemble (number := Z)
    (session_of
       ([measurement_of [curve_of [VNum 0; VNum 1; VNum 2] [VNum 10; VNum 20];
                         curve_of [VNum 0; VNum 5] [VNum 7; VNum 8]]]
        ++ [measurement_of [curve_of [VNum 3] [VNum 4]]])) []
  = (Ok tt, [mkScan 2 [VNum 0; VNum 5] [VNum 7; VNum 8]]
            ++ [mkScan 1 [VNum 3] [VNum 4]]).
Proof.
  apply (walk_composes_over_measurements
           [measurement_of [curve_of [VNum 0; VNum 1; VNum 2] [VNum 10; VNum 20];
                            curve_of [VNum 0; VNum 5] [VNum 7; VNum 8]]]
           [measurement_of [curve_of [VNum 3] [VNum 4]]]
           [mkScan 2 [VNum 0; VNum 5] [VNum 7; VNum 8]]).
  reflexivity.
Defined.

(** ** The table and the scan numbers *)

Section LabelFacts.

Context {number : Type}.
Variable str_of : value number -> string.

Lemma data_line_same_series (i : Z) (scans : list (ScanRecord number)) :
  forall scans' line,
    map potential scans = map potential scans' ->
    map current scans = map current scans' ->
    data_line str_of i scans line = data_line str_of i scans' line.
Proof.
  induction scans as [|scan scans IH]; intros [|scan' scans'] line Hp Hc;
    try discriminate; [reflexivity|].
  simpl in Hp, Hc. injection Hp as Hp Hps. injection Hc as Hc Hcs.
  simpl. unfold cell_group. rewrite Hp, Hc.
  destruct (i <? len (potential scan')); simpl.
  - destruct (list_item (potential scan') i); simpl; [|reflexivity].
    destruct (list_item (current scan') i); simpl; [|reflexivity].
    now apply IH.
  - now apply IH.
Qed.

Lemma write_rows_same_series (rows : list Z) (scans scans' : list (ScanRecord number)) :
  map potential scans = map potential scans' ->
  map current scans = map current scans' ->
  forall output_file,
    write_rows str_of rows scans output_file
    = write_rows str_of rows scans' output_file.
Proof.
  intros Hp Hc. induction rows as [|i rows IH]; intros output_file; simpl;
    [reflexivity|].
  rewrite (data_line_same_series i scans scans' EmptyString Hp Hc).
  destruct (data_line str_of i scans' EmptyString); [apply IH|reflexivity].
Qed.

End LabelFacts.

(** X9.  The table does not show the scan numbers: two sequences of
    records with the same series, in the same order, are written as the
    same table, whatever their [scan_number] fields.  (The labels of the
    first header line count the records of the sequence.) *)
Theorem table_ignores_scan_numbers
  {number : Type} (str_of : value number -> string)
  (scans scans' : list (ScanRecord number)) :
  map potential scans = map potential scans' ->
  map current scans = map current scans' ->
  write_table str_of scans = write_table str_of scans'.
Proof.
  intros Hp Hc. unfold write_table.
  assert (Hlen : len scans = len scans').
  { unfold len. f_equal.
    rewrite <- (length_map potential scans), Hp. apply length_map. }
  rewrite Hlen.
  replace (map (fun scan => len (potential scan)) scans)
    with (map (fun scan => len (potential scan)) scans')
    by (rewrite <- !(map_map potential (@len _)); now rewrite Hp).
  destruct (py_max _); [|reflexivity].
  now apply write_rows_same_series.
Qed.

(** The records of the sample document, numbered 2 and 1 by the walk, are
    written like the same series numbered 1 and 2. *)
Lemma table_ignores_scan_numbers_witness :
  write_table str_of_sample
    [mkScan 2 [VNum 0; VNum 5] [VNum 7; VNum 8]; mkScan 1 [VNum 3] [VNum 4]]
  = write_table str_of_sample
      [mkScan 1 [VNum 0; VNum 5] [VNum 7; VNum 8]; mkScan 2 [VNum 3] [VNum 4]].
Proof.
  apply (table_ignores_scan_numbers str_of_sample); reflexivity.
Defined.

(** ** A current series that is too short *)

Section IndexFacts.

Context {number : Type}.
Variable str_of : value number -> string.

Lemma list_item_raises {A : Type} (l : list A) (i : Z) e :
  list_item l i = Raise e -> e = IndexError.
Proof.
  unfold list_item.
  destruct ((0 <=? _) && _); [|congruence].
  destruct (nth_error l _); congruence.
Qed.

Lemma list_item_end {A : Type} (l : list A) :
  list_item l (len l) = Raise IndexError.
Proof.
  unfold list_item, len.
  destruct (Z.ltb_spec (Z.of_nat (List.length l)) 0) as [Hneg|_]; [lia|].
  destruct (Z.ltb_spec (Z.of_nat (List.length l)) (Z.of_nat (List.length l)))
    as [Hlt|_]; [lia|].
  now rewrite andb_false_r.
Qed.

Lemma cell_group_raises (i : Z) (scan : ScanRecord number) e :
  cell_group str_of i scan = Raise e -> e = IndexError.
Proof.
  unfold cell_group. destruct (i <? len (potential scan)); [|discriminate].
  destruct (list_item (potential scan) i) eqn:Hp; simpl;
    [|intros [= <-]; eapply list_item_raises; eassumption].
  destruct (list_item (current scan) i) eqn:Hc; simpl; [discriminate|].
  intros [= <-]; eapply list_item_raises; eassumption.
Qed.

Lemma data_line_raises (i : Z) (scans : list (ScanRecord number)) :
  forall line e, data_line str_of i scans line = Raise e -> e = IndexError.
Proof.
  induction scans as [|scan scans IH]; intros line e; simpl; [discriminate|].
  destruct (cell_group str_of i scan) eqn:Hcell; simpl.
  - apply IH.
  - intros [= <-]. eapply cell_group_raises; eassumption.
Qed.

(** The row just past the end of a current series that is shorter than
    its potential series cannot be built. *)
Lemma cell_group_short (scan : ScanRecord number) :
  len (current scan) < len (potential scan) ->
  cell_group str_of (len (current scan)) scan = Raise IndexError.
Proof.
  intros Hshort. unfold cell_group.
  destruct (Z.ltb_spec (len (current scan)) (len (potential scan))) as [_|Hge];
    [|lia].
  destruct (list_item (potential scan) (len (current scan))) eqn:Hp; simpl.
  - now rewrite list_item_end.
  - f_equal. eapply list_item_raises; eassumption.
Qed.

Lemma data_line_short (i : Z) (scans : list (ScanRecord number)) scan :
  In scan scans ->
  cell_group str_of i scan = Raise IndexError ->
  forall line, data_line str_of i scans line = Raise IndexError.
Proof.
  intros Hin Hcell.
  induction scans as [|head scans IH]; intros line; [contradiction|]. simpl.
  destruct (cell_group str_of i head) as [group|e] eqn:Hhead; simpl.
  - destruct Hin as [->|Hin]; [congruence|]. now apply IH.
  - f_equal. eapply cell_group_raises; eassumption.
Qed.

(** Writing stops at the first row that cannot be built. *)
Lemma write_rows_stops (scans : list (ScanRecord number)) (k : nat) :
  data_line str_of (Z.of_nat k) scans EmptyString = Raise IndexError ->
  forall n a output_file,
    (a <= k < a + n)%nat ->
    exists rows,
      write_rows str_of (map Z.of_nat (seq a n)) scans output_file
      = (output_file ++ rows, Raise IndexError)
      /\ (List.length rows <= k - a)%nat.
Proof.
  intros Hfail. induction n as [|n IH]; intros a output_file Hk; [lia|].
  simpl. destruct (data_line str_of (Z.of_nat a) scans EmptyString)
    as [line|e] eqn:Hline.
  - assert (a <> k) by (intros ->; congruence).
    destruct (IH (S a) (output_file ++ [(line ++ newline)%string])) as
      (rows & Hrun & Hlen); [lia|].
    exists ((line ++ newline)%string :: rows). rewrite Hrun, <- app_assoc.
    split; [reflexivity|simpl; lia].
  - exists []. rewrite app_nil_r. split; [|simpl; lia].
    do 2 f_equal. eapply data_line_raises; eassumption.
Qed.

End IndexFacts.

(** X10.  The writer relies on the invariant of the records.  If some
    record has fewer current values than potential values, writing the
    table stops with [IndexError]: the two header lines have been written,
    and at most as many data rows as that record has current values.
    (By X6 no record that [parse_pessession_file] returns is like this.) *)
Theorem short_current_series_raises
  {number : Type} (str_of : value number -> string)
  (all_scans : list (ScanRecord number)) (scan : ScanRecord number) :
  In scan all_scans ->
  len (current scan) < len (potential scan) ->
  exists rows,
    write_table str_of all_scans
    = ((scan_header (len all_scans) ++ newline)%string
       :: (column_header (len all_scans) ++ newline)%string
       :: rows,
       Raise IndexError)
    /\ len rows <= len (current scan).
Proof.
  intros Hin Hshort. unfold write_table.
  destruct (py_max_spec (map (fun s => len (potential s)) all_scans))
    as (max_points & Hmax & _ & Hle).
  { destruct all_scans; [contradiction|discriminate]. }
  rewrite Hmax. unfold range.
  assert (Hbound : len (potential scan) <= max_points).
  { apply Hle, in_map_iff. eauto. }
  destruct (write_rows_stops str_of all_scans (List.length (current scan)))
    with (n := Z.to_nat max_points) (a := 0%nat)
         (output_file := [] ++ [(scan_header (len all_scans) ++ newline)%string]
                            ++ [(column_header (len all_scans) ++ newline)%string])
    as (rows & Hrun & Hlen).
  - apply data_line_short with scan; [assumption|].
    now apply cell_group_short.
  - unfold len in *. lia.
  - exists rows. split; [exact Hrun|unfold len; lia].
Qed.

(** Three potential values and one current value: one row is written. *)
Lemma short_current_series_witness :
  write_table str_of_number short_current_scans
  = ([("Scan 1" ++ tab ++ tab ++ tab ++ tab ++ newline)%string;
      (column_group ++ newline)%string;
      ("1" ++ tab ++ "4" ++ tab ++ tab ++ newline)%string],
     Raise IndexError)
  /\ exists rows,
       write_table str_of_number short_current_scans
       = ((scan_header (len short_current_scans) ++ newline)%string
          :: (column_header (len short_current_scans) ++ newline)%string
          :: rows,
          Raise IndexError)
       /\ len rows <= 1.
Proof.
  split; [reflexivity|].
  apply (short_current_series_raises str_of_number short_current_scans
           (mkScan 1 [VNum 1; VNum 2; VNum 3] [VNum 4])).
  - left; reflexivity.
  - reflexivity.
Defined.

(** ** The columns of the table *)

Section TabFacts.

Lemma count_tabs_app (s t : string) :
  count_tabs (s ++ t) = (count_tabs s + count_tabs t)%nat.
Proof. induction s as [|c s IH]; simpl; [reflexivity|rewrite IH; lia]. Qed.

Lemma count_tabs_join (parts : list string) :
  count_tabs (join parts) = list_sum (map count_tabs parts).
Proof.
  induction parts as [|s parts IH]; simpl; [reflexivity|].
  now rewrite count_tabs_app, IH.
Qed.

Lemma list_sum_constant {A : Type} (f : A -> nat) (c : nat) (l : list A) :
  (forall x, f x = c) -> list_sum (map f l) = (c * List.length l)%nat.
Proof.
  intros Hf. induction l as [|x l IH]; simpl; [lia|]. rewrite Hf, IH. lia.
Qed.

Lemma list_sum_repeat {A : Type} (f : A -> nat) (x : A) (n : nat) :
  list_sum (map f (repeat x n)) = (f x * n)%nat.
Proof. induction n as [|n IH]; simpl; [lia|]. rewrite IH. lia. Qed.

Lemma count_tabs_digits (d : Decimal.uint) :
  count_tabs (DecimalString.NilEmpty.string_of_uint d) = 0%nat.
Proof. induction d; simpl; auto. Qed.

(** A number printed in decimal has no tab. *)
Lemma count_tabs_str_of_int (n : Z) : count_tabs (str_of_int n) = 0%nat.
Proof.
  unfold str_of_int, DecimalString.NilZero.string_of_int,
    DecimalString.NilZero.string_of_uint.
  destruct (Z.to_int n) as [d|d]; destruct d; simpl;
    auto using count_tabs_digits.
Qed.

Lemma count_tabs_scan_label (k : nat) : count_tabs (scan_label k) = 4%nat.
Proof.
  unfold scan_label. rewrite !count_tabs_app, count_tabs_str_of_int.
  reflexivity.
Qed.

Lemma fold_left_labels {A : Type} (label : A -> string) (l : list A) :
  forall header_line,
    fold_left (fun header_line x => (header_line ++ label x)%string) l header_line
    = (header_line ++ join (map label l))%string.
Proof.
  induction l as [|x l IH]; intros header_line; simpl.
  - now rewrite append_nil_r.
  - now rewrite IH, append_assoc.
Qed.

(** The first header line labels the scans 1, 2, ... in order. *)
Lemma scan_header_labels (n : nat) :
  scan_header (Z.of_nat n) = join (map scan_label (seq 0 n)).
Proof.
  unfold scan_header, range.
  rewrite (fold_left_labels
             (fun scan_num =>
                ("Scan " ++ str_of_int (scan_num + 1)
                         ++ tab ++ tab ++ tab ++ tab)%string)).
  rewrite Nat2Z.id, map_map. reflexivity.
Qed.

End TabFacts.

Section CellTabs.

Context {number : Type}.
Variable str_of : value number -> string.

Lemma list_sum_constant_in {A : Type} (f : A -> nat) (c : nat) (l : list A) :
  (forall x, In x l -> f x = c) -> list_sum (map f l) = (c * List.length l)%nat.
Proof.
  induction l as [|x l IH]; intros Hf; simpl; [lia|].
  rewrite (Hf x) by now left. rewrite IH by (intros y Hy; apply Hf; now right).
  lia.
Qed.

Lemma count_tabs_cell_text (i : nat) (scan : ScanRecord number) :
  prints_without_tab str_of scan ->
  count_tabs (cell_text str_of i scan) = 3%nat.
Proof.
  intros [Hp Hc]. unfold cell_text.
  destruct (nth_error (potential scan) i) as [p|] eqn:Hpi; [|reflexivity].
  destruct (nth_error (current scan) i) as [c|] eqn:Hci; [|reflexivity].
  rewrite !count_tabs_app.
  rewrite (proj1 (Forall_forall _ _) Hp p (nth_error_In _ _ Hpi)).
  rewrite (proj1 (Forall_forall _ _) Hc c (nth_error_In _ _ Hci)).
  reflexivity.
Qed.

Lemma count_tabs_row_text (all_scans : list (ScanRecord number)) (i : nat) :
  Forall (prints_without_tab str_of) all_scans ->
  count_tabs (row_text str_of all_scans i) = (3 * List.length all_scans)%nat.
Proof.
  intros Hall. unfold row_text.
  rewrite count_tabs_app, count_tabs_join, map_map.
  rewrite (list_sum_constant_in _ 3%nat).
  - simpl. lia.
  - intros scan Hscan. apply count_tabs_cell_text.
    exact (proj1 (Forall_forall _ _) Hall scan Hscan).
Qed.

End CellTabs.

(** X11.  The layout of a written table, for non-empty consistent records
    whose values are printed without tabs: the first header line is made
    of the labels "Scan 1", "Scan 2", ... by position, each followed by
    four tabs; the second header line is made of one column group per
    record; the first header line therefore has four tabs per record,
    while the second header line and every data row have three tabs per
    record. *)
Theorem table_tab_counts
  {number : Type} (str_of : value number -> string)
  (all_scans : list (ScanRecord number)) :
  all_scans <> [] ->
  Forall consistent all_scans ->
  Forall (prints_without_tab str_of) all_scans ->
  exists rows,
    write_table str_of all_scans
    = ((join (map scan_label (seq 0 (List.length all_scans))) ++ newline)%string
       :: (join (repeat column_group (List.length all_scans)) ++ newline)%string
       :: rows,
       Ok tt)
    /\ count_tabs (join (map scan_label (seq 0 (List.length all_scans))) ++ newline)
       = (4 * List.length all_scans)%nat
    /\ count_tabs (join (repeat column_group (List.length all_scans)) ++ newline)
       = (3 * List.length all_scans)%nat
    /\ Forall (fun row => count_tabs row = (3 * List.length all_scans)%nat) rows.
Proof.
  intros Hnonempty Hall Hno_tab.
  destruct (write_table_run str_of all_scans Hnonempty Hall) as
    (max_points & _ & Hrun).
  exists (map (row_text str_of all_scans) (seq 0 (Z.to_nat max_points))).
  split; [|split; [|split]].
  - rewrite Hrun. unfold len.
    now rewrite scan_header_labels, column_header_groups.
  - rewrite count_tabs_app, count_tabs_join, map_map.
    rewrite (list_sum_constant _ 4%nat) by (intros; apply count_tabs_scan_label).
    rewrite length_seq. simpl. lia.
  - rewrite count_tabs_app, count_tabs_join, list_sum_repeat.
    change (count_tabs column_group) with 3%nat. simpl. lia.
  - apply Forall_forall. intros row (i & <- & _)%in_map_iff.
    now apply count_tabs_row_text.
Qed.

(** The records of lengths 3 and 5, with a printer that prints a string as
    it is: eight tabs in the first header line, six in the second and in
    each of the five data rows. *)
Lemma table_tab_counts_witness :
  Forall (prints_without_tab str_of_sample) sample_scans
  /\ exists rows,
       write_table str_of_sample sample_scans
       = ((join (map scan_label (seq 0 (List.length sample_scans))) ++ newline)%string
          :: (join (repeat column_group (List.length sample_scans)) ++ newline)%string
          :: rows,
          Ok tt)
       /\ count_tabs (join (map scan_label (seq 0 (List.length sample_scans)))
                      ++ newline)
          = (4 * List.length sample_scans)%nat
       /\ count_tabs (join (repeat column_group (List.length sample_scans))
                      ++ newline)
          = (3 * List.length sample_scans)%nat
       /\ Forall (fun row => count_tabs row = (3 * List.length sample_scans)%nat)
                 rows.
Proof.
  assert (Hno_tab : Forall (prints_without_tab str_of_sample) sample_scans).
  { repeat constructor. }
  split; [exact Hno_tab|].
  apply (table_tab_counts str_of_sample sample_scans).
  - discriminate.
  - repeat constructor.
  - exact Hno_tab.
Defined.

(** ** Where a record comes from *)

Section ProvenanceFacts.

Context {number : Type}.

Lemma comprehension_values (points vs : list (value number)) :
  comprehension (fun point => py_getitem point "V") points = Ok vs ->
  Forall2 exposes points vs.
Proof.
  revert vs; induction points as [|point points IH]; intros vs; simpl.
  - intros [= <-]. constructor.
  - destruct (py_getitem point "V") as [v|e] eqn:Hv; simpl; [|discriminate].
    destruct (comprehension _ points) as [ws|e]; simpl; [|discriminate].
    intros [= <-]. constructor; [|now apply IH].
    destruct point as [| | | |l|d]; try discriminate. simpl in Hv.
    exists d. split; [reflexivity|].
    destruct (dict_get d "V"); [now injection Hv as ->|discriminate].
Qed.

(** Iterating over a dict or a string gives strings only. *)
Lemma py_iter_has_dict (v : value number) (l : list (value number)) c :
  py_iter v = Ok l -> In (VDict c) l -> v = VList l.
Proof.
  destruct v as [| | |s|items|d]; simpl; try discriminate.
  - intros [= <-] (a & Ha & _)%in_map_iff. discriminate.
  - now intros [= <-].
  - intros [= <-] (kv & Hkv & _)%in_map_iff. discriminate.
Qed.

Lemma comprehension_strings {A : Type} (keys : list A) (f : A -> string) :
  forall vs,
    comprehension (fun point => py_getitem point "V")
                  (map (fun k => @VStr number (f k)) keys) = Ok vs ->
    vs = [].
Proof.
  intros vs. destruct keys as [|k keys]; simpl; [now intros [= <-]|].
  discriminate.
Qed.

(** A series that is not empty comes from a curve of the data model. *)
Lemma axis_values_nonempty (axis : string) (curve : value number) vs :
  axis_values axis curve = Ok vs ->
  vs <> [] ->
  exists c, curve = VDict c /\ series_at axis c vs.
Proof.
  unfold axis_values. intros Hrun Hnonempty.
  destruct curve as [| | |s|l|c]; simpl in Hrun; try discriminate.
  - destruct (is_substring axis s); simpl in Hrun; [discriminate|].
    injection Hrun as <-. congruence.
  - destruct (existsb (str_equals axis) l); simpl in Hrun; [discriminate|].
    injection Hrun as <-. congruence.
  - exists c. split; [reflexivity|].
    destruct (dict_get c axis) as [array|] eqn:Haxis; simpl in Hrun;
      [|injection Hrun as <-; congruence].
    destruct array as [| | |s|l|a]; simpl in Hrun; try discriminate.
    + destruct (is_substring "DataValues" s); simpl in Hrun; [discriminate|].
      injection Hrun as <-. congruence.
    + destruct (existsb (str_equals "DataValues") l); simpl in Hrun;
        [discriminate|].
      injection Hrun as <-. congruence.
    + destruct (dict_get a "DataValues") as [values|] eqn:Hvalues;
        simpl in Hrun; [|injection Hrun as <-; congruence].
      destruct values as [| | |s|points|d]; simpl in Hrun; try discriminate.
      * apply (comprehension_strings _ (fun c => String c EmptyString)) in Hrun.
        congruence.
      * apply comprehension_values in Hrun.
        eapply series_values; eassumption.
      * apply (comprehension_strings _ fst) in Hrun. congruence.
Qed.

Lemma curves_of_has_dict (measurement : value number) curves c :
  curves_of measurement = Ok curves ->
  In (VDict c) curves ->
  exists m, measurement = VDict m /\ dict_get m "Curves" = Some (VList curves).
Proof.
  unfold curves_of. intros Hrun Hin.
  destruct measurement as [| | |s|l|m]; simpl in Hrun; try discriminate.
  - destruct (is_substring "Curves" s); simpl in Hrun; [discriminate|].
    injection Hrun as <-. contradiction.
  - destruct (existsb (str_equals "Curves") l); simpl in Hrun; [discriminate|].
    injection Hrun as <-. contradiction.
  - exists m. split; [reflexivity|].
    destruct (dict_get m "Curves") as [v|]; simpl in Hrun;
      [|injection Hrun as <-; contradiction].
    now rewrite (py_iter_has_dict v curves c Hrun Hin).
Qed.

Lemma measurements_of_has_dict (data : value number) measurements m :
  measurements_of data = Ok measurements ->
  In (VDict m) measurements ->
  exists d, data = VDict d
            /\ dict_get d "Measurements" = Some (VList measurements).
Proof.
  unfold measurements_of. intros Hrun Hin.
  destruct data as [| | |s|l|d]; simpl in Hrun; try discriminate.
  - destruct (is_substring "Measurements" s); simpl in Hrun; [discriminate|].
    injection Hrun as <-. contradiction.
  - destruct (existsb (str_equals "Measurements") l); simpl in Hrun;
      [discriminate|].
    injection Hrun as <-. contradiction.
  - exists d. split; [reflexivity|].
    destruct (dict_get d "Measurements") as [v|]; simpl in Hrun;
      [|injection Hrun as <-; contradiction].
    destruct (py_len v) as [n|e]; simpl in Hrun; [|discriminate].
    destruct (n >? 0); [|injection Hrun as <-; contradiction].
    now rewrite (py_iter_has_dict v measurements m Hrun Hin).
Qed.

End ProvenanceFacts.

(** X12.  Records come only from well-formed places of the document.  For
    every record the walk appends (also when the walk later raises): the
    document is a dict whose ['Measurements'] is a list; one of its
    elements is a dict whose ['Curves'] is a list; the element of that
    list at the index given by the scan number, minus 1, is a dict; and
    the potential and the current of the record are the series of that
    curve on the two axes, each ['DataValues'] being a list of dicts that
    have ['V']. *)
Theorem records_come_from_well_formed_curves
  {number : Type} (data : value number) (status : result unit)
  (out : list (ScanRecord number)) (r : ScanRecord number) :
  assemble data [] = (status, out) ->
  In r out ->
  exists d measurements j m curves i c,
    data = VDict d
    /\ dict_get d "Measurements" = Some (VList measurements)
    /\ nth_error measurements j = Some (VDict m)
    /\ dict_get m "Curves" = Some (VList curves)
    /\ nth_error curves i = Some (VDict c)
    /\ scan_number r = Z.of_nat i + 1
    /\ series_at "XAxisDataArray" c (potential r)
    /\ series_at "YAxisDataArray" c (current r).
Proof.
  rewrite assemble_run. intros [= _ <-] Hr. cbn [app] in Hr.
  destruct (proj1 (Forall_forall _ _) (scans_of_document_well_formed data) r Hr)
    as (_ & Hpos & Hlen).
  assert (Hpot : potential r <> []) by (intros Heq; rewrite Heq in Hpos; discriminate).
  assert (Hcur : current r <> []).
  { intros Heq; rewrite Heq in Hlen. unfold len in *; simpl in Hlen. lia. }
  unfold scans_of_document in Hr.
  destruct (measurements_of data) as [measurements|e] eqn:Hms; [|contradiction].
  apply gather_in in Hr as ([k measurement] & Hm & Hr).
  apply enumerate_from_in in Hm as (j & Hj & _).
  unfold scans_of_measurement in Hr; cbn [snd] in Hr.
  destruct (curves_of measurement) as [curves|e] eqn:Hcurves; [|contradiction].
  apply gather_in in Hr as ([k' curve] & Hc & Hr).
  apply enumerate_from_in in Hc as (i & Hi & ->).
  apply scans_of_curve_in in Hr as (_ & Hnum & Hx & Hy). cbn [fst snd] in *.
  destruct (axis_values_nonempty _ _ _ Hx Hpot) as (c & -> & Hsx).
  destruct (axis_values_nonempty _ _ _ Hy Hcur) as (c' & [= <-] & Hsy).
  destruct (curves_of_has_dict _ _ c Hcurves (nth_error_In _ _ Hi))
    as (m & -> & Hmc).
  destruct (measurements_of_has_dict _ _ m Hms (nth_error_In _ _ Hj))
    as (d & -> & Hdm).
  exists d, measurements, j, m, curves, i, c.
  repeat (split; [first [reflexivity|assumption|lia]|]). assumption.
Qed.

(** The second record of the sample document comes from the second curve
    of its first measurement. *)
Lemma records_come_from_well_formed_curves_witness :
  assemble sample_session []
  = (Ok tt, [mkScan 2 [VNum 0; VNum 5] [VNum 7; VNum 8];
             mkScan 1 [VNum 3] [VNum 4]])
  /\ exists d measurements j m curves i c,
       sample_session = VDict d
       /\ dict_get d "Measurements" = Some (VList measurements)
       /\ nth_error measurements j = Some (VDict m)
       /\ dict_get m "Curves" = Some (VList curves)
       /\ nth_error curves i = Some (VDict c)
       /\ scan_number (mkScan 2 [VNum 0; VNum 5] [VNum 7; VNum 8])
          = Z.of_nat i + 1
       /\ series_at "XAxisDataArray" c
            (potential (mkScan 2 [VNum 0; VNum 5] [VNum 7; VNum 8]))
       /\ series_at "YAxisDataArray" c
            (current (mkScan 2 [VNum 0; VNum 5] [VNum 7; VNum 8])).
Proof.
  split; [reflexivity|].
  apply (records_come_from_well_formed_curves sample_session (Ok tt)
           [mkScan 2 [VNum 0; VNum 5] [VNum 7; VNum 8];
            mkScan 1 [VNum 3] [VNum 4]]).
  - reflexivity.
  - left; reflexivity.
Defined.

(** ** The exceptions of the walk *)

Section ExceptionFacts.

Context {number : Type}.

Lemma py_contains_raises (key : string) (x : value number) e :
  py_contains key x = Raise e -> e = TypeError.
Proof. destruct x; simpl; congruence. Qed.

Lemma py_len_raises (x : value number) e : py_len x = Raise e -> e = TypeError.
Proof. destruct x; simpl; congruence. Qed.

Lemma py_iter_raises (x : value number) e : py_iter x = Raise e -> e = TypeError.
Proof. destruct x; simpl; congruence. Qed.

Lemma py_getitem_raises (x : value number) (key : string) e :
  py_getitem x key = Raise e -> e = TypeError \/ e = KeyError key.
Proof.
  destruct x as [| | | | |d]; simpl; try (intros [= <-]; now left).
  destruct (dict_get d key); [discriminate|]. intros [= <-]. now right.
Qed.

(** After [key in x], [x[key]] cannot raise [KeyError]. *)
Lemma py_getitem_guarded (x : value number) (key : string) e :
  py_contains key x = Ok true -> py_getitem x key = Raise e -> e = TypeError.
Proof.
  destruct x as [| | | | |d]; simpl; try congruence.
  destruct (dict_get d key); congruence.
Qed.

Lemma comprehension_raises (points : list (value number)) e :
  comprehension (fun point => py_getitem point "V") points = Raise e ->
  e = TypeError \/ e = KeyError "V".
Proof.
  induction points as [|point points IH]; simpl; [discriminate|].
  destruct (py_getitem point "V") as [v|e'] eqn:Hv; simpl.
  - destruct (comprehension _ points); simpl; [discriminate|].
    intros [= <-]. now apply IH.
  - intros [= <-]. eapply py_getitem_raises; eassumption.
Qed.

Lemma axis_values_raises (axis : string) (curve : value number) e :
  axis_values axis curve = Raise e -> e = TypeError \/ e = KeyError "V".
Proof.
  unfold axis_values.
  destruct (py_contains axis curve) as [[|]|e1] eqn:Haxis; simpl;
    [|discriminate|intros [= <-]; left; eapply py_contains_raises; eassumption].
  destruct (py_getitem curve axis) as [array|e1] eqn:Harray; simpl;
    [|intros [= <-]; left; eapply py_getitem_guarded; eassumption].
  destruct (py_contains "DataValues" array) as [[|]|e1] eqn:Hvalues; simpl;
    [|discriminate|intros [= <-]; left; eapply py_contains_raises; eassumption].
  destruct (py_getitem array "DataValues") as [values|e1] eqn:Hdata; simpl;
    [|intros [= <-]; left; eapply py_getitem_guarded; eassumption].
  destruct (py_iter values) as [points|e1] eqn:Hpoints; simpl;
    [|intros [= <-]; left; eapply py_iter_raises; eassumption].
  apply comprehension_raises.
Qed.

Lemma gather_raises {A : Type} (f : A -> @contribution number) (items : list A) e :
  snd (gather f items) = Raise e ->
  exists x, In x items /\ snd (f x) = Raise e.
Proof.
  induction items as [|x items IH]; simpl; [discriminate|].
  destruct (f x) as [added [[]|e']] eqn:Hx; simpl.
  - destruct (gather f items) as [more status]; simpl in *.
    intros Hstatus. destruct (IH Hstatus) as (y & Hy & He). eauto.
  - intros [= <-]. exists x. rewrite Hx. auto.
Qed.

Lemma scans_of_curve_raises (item : Z * value number) e :
  snd (scans_of_curve item) = Raise e -> e = TypeError \/ e = KeyError "V".
Proof.
  unfold scans_of_curve.
  destruct (axis_values "XAxisDataArray" (snd item)) as [xs|e1] eqn:Hx; simpl;
    [|intros [= <-]; eapply axis_values_raises; eassumption].
  destruct (axis_values "YAxisDataArray" (snd item)) as [ys|e1] eqn:Hy; simpl;
    [discriminate|intros [= <-]; eapply axis_values_raises; eassumption].
Qed.

Lemma curves_of_raises (measurement : value number) e :
  curves_of measurement = Raise e -> e = TypeError.
Proof.
  unfold curves_of.
  destruct (py_contains "Curves" measurement) as [[|]|e1] eqn:Hcurves; simpl;
    [|discriminate|intros [= <-]; eapply py_contains_raises; eassumption].
  destruct (py_getitem measurement "Curves") as [curves|e1] eqn:Hget; simpl;
    [|intros [= <-]; eapply py_getitem_guarded; eassumption].
  apply py_iter_raises.
Qed.

Lemma scans_of_measurement_raises (item : Z * value number) e :
  snd (scans_of_measurement item) = Raise e ->
  e = TypeError \/ e = KeyError "V".
Proof.
  unfold scans_of_measurement.
  destruct (curves_of (snd item)) as [curves|e1] eqn:Hcurves; simpl;
    [|intros [= <-]; left; eapply curves_of_raises; eassumption].
  intros (curve_item & _ & Hraise)%gather_raises.
  eapply scans_of_curve_raises; eassumption.
Qed.

Lemma measurements_of_raises (data : value number) e :
  measurements_of data = Raise e -> e = TypeError.
Proof.
  unfold measurements_of.
  destruct (py_contains "Measurements" data) as [[|]|e1] eqn:Hms; simpl;
    [|discriminate|intros [= <-]; eapply py_contains_raises; eassumption].
  destruct (py_getitem data "Measurements") as [ms|e1] eqn:Hget; simpl;
    [|intros [= <-]; eapply py_getitem_guarded; eassumption].
  destruct (py_len ms) as [n|e1] eqn:Hlen; simpl;
    [|intros [= <-]; eapply py_len_raises; eassumption].
  destruct (n >? 0); [apply py_iter_raises|discriminate].
Qed.

End ExceptionFacts.

(** X13.  The walk over a document raises only two exceptions:
    [TypeError], when a value has not the type the code treats it as, and
    [KeyError] for the key ['V'], when a data point lacks its value.
    Every other key is looked up only after the test [key in ...], so no
    other [KeyError] can occur. *)
Theorem walk_raises_type_error_or_missing_value
  {number : Type} (data : value number)
  (all_scans out : list (ScanRecord number)) (e : exn) :
  assemble data all_scans = (Raise e, out) ->
  e = TypeError \/ e = KeyError "V".
Proof.
  rewrite assemble_run. intros [= Hstatus _].
  unfold scans_of_document in Hstatus.
  destruct (measurements_of data) as [measurements|e1] eqn:Hms; simpl in Hstatus.
  - apply gather_raises in Hstatus as (item & _ & Hraise).
    eapply scans_of_measurement_raises; eassumption.
  - injection Hstatus as <-. left. eapply measurements_of_raises; eassumption.
Qed.

(** The data point without ['V'] of [broken_session]. *)
Lemma walk_raises_witness :
  assemble broken_session []
  = (Raise (KeyError "V"), [mkScan 1 [VNum 0; VNum 5] [VNum 7; VNum 8]])
  /\ (KeyError "V" = TypeError \/ KeyError "V" = KeyError "V").
Proof.
  split; [reflexivity|].
  apply (walk_raises_type_error_or_missing_value broken_session []
           [mkScan 1 [VNum 0; VNum 5] [VNum 7; VNum 8]]).
  reflexivity.
Defined.

(** ** The curves of a document and the records of the walk *)

Section EmissionFacts.

Context {number : Type}.

Lemma nonempty_of_len {A : Type} (l : list A) : 0 < len l -> l <> [].
Proof. intros Hpos ->. unfold len in Hpos; simpl in Hpos. lia. Qed.

(** What the walk appends for a curve it passes without an exception. *)
Lemma scans_of_curve_emitted (item : Z * value number) :
  snd (scans_of_curve item) = Ok tt ->
  emitted_for item (fst (scans_of_curve item)).
Proof.
  unfold scans_of_curve, emitted_for.
  destruct (axis_values "XAxisDataArray" (snd item)) as [xs|e] eqn:Hx;
    [|discriminate].
  destruct (axis_values "YAxisDataArray" (snd item)) as [ys|e] eqn:Hy;
    [|discriminate].
  intros _. exists xs, ys. split; [reflexivity|]. split; [reflexivity|].
  destruct (aligned xs ys) eqn:Hal; cbn [fst].
  - left. apply aligned_spec in Hal as [Hpos Hlen].
    split; [assumption|]. split; [assumption|]. split; [reflexivity|].
    destruct (axis_values_nonempty _ _ _ Hx (nonempty_of_len _ Hpos))
      as (curve & Hcurve & Hsx).
    destruct (axis_values_nonempty _ _ _ Hy
                (nonempty_of_len _ ltac:(rewrite <- Hlen; exact Hpos)))
      as (curve' & Hcurve' & Hsy).
    exists curve. split; [assumption|]. split; [assumption|].
    rewrite Hcurve in Hcurve'. now injection Hcurve' as ->.
  - right. split; [now apply not_aligned_spec|reflexivity].
Qed.

Lemma scans_of_measurement_emitted (item : Z * value number) :
  snd (scans_of_measurement item) = Ok tt ->
  exists curves per_curve,
    curves_of (snd item) = Ok curves
    /\ fst (scans_of_measurement item) = List.concat per_curve
    /\ Forall2 emitted_for (enumerate curves) per_curve.
Proof.
  unfold scans_of_measurement.
  destruct (curves_of (snd item)) as [curves|e]; [|discriminate].
  intros Hok. destruct (gather_ok _ _ Hok) as [Hcat Hall].
  exists curves, (map (fun x => fst (scans_of_curve x)) (enumerate curves)).
  split; [reflexivity|]. split; [assumption|].
  apply Forall2_map_self.
  eapply Forall_impl; [|exact Hall].
  intros curve_item; apply scans_of_curve_emitted.
Qed.

End EmissionFacts.

(** C1.  For every curve of the parsed document, the assembler emits
    exactly one record if and only if the two series extracted from the
    curve are non-empty and equally long.  Whenever the walk [assemble]
    over a document ends normally, its list is made, measurement after
    measurement and curve after curve, of what [emitted_for] describes
    for each curve the walk visits: one record holding the two series,
    which are the ['V'] values of [XAxisDataArray.DataValues] and
    [YAxisDataArray.DataValues] in order, when both are non-empty and
    equally long; nothing, never a shortened or repaired record, when a
    series is empty or the lengths differ.  The same holds of each step of
    the loop over curves, from any state and whatever the curve is: the
    step appends that one record, or leaves [all_scans] as it is. *)
Theorem assembler_emits_one_record_per_aligned_curve
  {number : Type} (data : value number) (out : list (ScanRecord number)) :
  assemble data [] = (Ok tt, out) ->
  (exists measurements groups,
      measurements_of data = Ok measurements
      /\ out = List.concat groups
      /\ Forall2
           (fun measurement group =>
              exists curves per_curve,
                curves_of measurement = Ok curves
                /\ group = List.concat per_curve
                /\ Forall2 emitted_for (enumerate curves) per_curve)
           measurements groups)
  /\ (forall (curve_idx : Z) (curve : value number) xs ys
             (all_scans : list (ScanRecord number)),
         axis_values "XAxisDataArray" curve = Ok xs ->
         axis_values "YAxisDataArray" curve = Ok ys ->
         (0 < len xs /\ len xs = len ys ->
          process_curve (curve_idx, curve) all_scans
          = (Ok tt, all_scans ++ [mkScan (curve_idx + 1) xs ys]))
         /\ (xs = [] \/ ys = [] \/ len xs <> len ys ->
             process_curve (curve_idx, curve) all_scans = (Ok tt, all_scans))).
Proof.
  intros Hrun. split.
  - rewrite assemble_run in Hrun. injection Hrun as Hstatus <-. cbn [app].
    unfold scans_of_document in *.
    destruct (measurements_of data) as [measurements|e]; [|discriminate].
    destruct (gather_ok _ _ Hstatus) as [Hcat Hall].
    exists measurements,
      (map (fun x => fst (scans_of_measurement x)) (enumerate measurements)).
    split; [reflexivity|]. split; [assumption|].
    apply Forall2_enumerate.
    eapply Forall_impl; [|exact Hall].
    intros item Hok; cbn beta in *.
    exact (scans_of_measurement_emitted item Hok).
  - intros curve_idx curve xs ys all_scans Hx Hy.
    rewrite (process_curve_run _ _ _ _ _ Hx Hy). split.
    + intros Hal%aligned_spec. now rewrite Hal.
    + intros Hbad%not_aligned_spec. rewrite Hbad. now rewrite app_nil_r.
Qed.

(** The sample document: the first curve of the first measurement has
    series of lengths 3 and 2 and gives nothing; the two other curves give
    one record each. *)
Lemma assembler_emits_one_record_witness :
  assemble sample_session []
  = (Ok tt, [mkScan 2 [VNum 0; VNum 5] [VNum 7; VNum 8];
             mkScan 1 [VNum 3] [VNum 4]])
  /\ exists measurements groups,
       measurements_of sample_session = Ok measurements
       /\ [mkScan 2 [VNum 0; VNum 5] [VNum 7; VNum 8];
           mkScan 1 [VNum 3] [VNum 4]] = List.concat groups
       /\ Forall2
            (fun measurement group =>
               exists curves per_curve,
                 curves_of measurement = Ok curves
                 /\ group = List.concat per_curve
                 /\ Forall2 emitted_for (enumerate curves) per_curve)
            measurements groups.
Proof.
  split; [reflexivity|].
  apply (proj1 (assembler_emits_one_record_per_aligned_curve
                  sample_session
                  [mkScan 2 [VNum 0; VNum 5] [VNum 7; VNum 8];
                   mkScan 1 [VNum 3] [VNum 4]] eq_refl)).
Defined.
